(** * Counterparty analysis, report defaults and export payload of the
      AML case pipeline (functions.py, bdc_utils.py)

    A shallow embedding of the functions that decide what a case dossier
    and its export payload contain:

    - [format_export_payload] (functions.py): Markdown stripping, error
      markers, the two score patterns, the score table and the
      "normalizar o caso" override;
    - [analyze_document] and [fetch_bdc_data] (bdc_utils.py), with the HTTP
      exchange as an oracle;
    - [analyze_counterparties] with its two nested helpers
      [extract_document_from_transaction] and
      [extract_processes_and_sanctions] (functions.py);
    - [merchant_report] and [cardholder_report] (functions.py), with the
      warehouse as an oracle.

    Python values are modelled by [pyval]; Python exceptions by the error
    monad [result]; Python [str] by lists of Unicode code points. *)

From Stdlib Require Import String Ascii Bool NArith ZArith QArith Lia.
From Stdlib Require Import List Permutation Sorted.
Import ListNotations.

Set Implicit Arguments.

(* ------------------------------------------------------------------ *)
(** * Python text *)
(* ------------------------------------------------------------------ *)

Module Text.

(** A Python [str] is a sequence of Unicode code points. *)
Definition pystr := list N.

(** Source literals are written as UTF-8 Rocq strings and decoded once. *)
Fixpoint utf8_decode (bs : list N) : pystr :=
  match bs with
  | [] => []
  | b :: r =>
      if (b <? 128)%N then b :: utf8_decode r
      else if (b <? 224)%N then
        match r with
        | c1 :: r' => ((b - 192) * 64 + (c1 - 128))%N :: utf8_decode r'
        | _ => []
        end
      else if (b <? 240)%N then
        match r with
        | c1 :: c2 :: r' =>
            ((b - 224) * 4096 + (c1 - 128) * 64 + (c2 - 128))%N :: utf8_decode r'
        | _ => []
        end
      else
        match r with
        | c1 :: c2 :: c3 :: r' =>
            ((b - 240) * 262144 + (c1 - 128) * 4096 + (c2 - 128) * 64 + (c3 - 128))%N
              :: utf8_decode r'
        | _ => []
        end
  end.

Definition U (s : string) : pystr :=
  utf8_decode (map N_of_ascii (list_ascii_of_string s)).

Definition pystr_eqb (a b : pystr) : bool :=
  if list_eq_dec N.eq_dec a b then true else false.

(** [prefix p s]: [s.startswith(p)]. *)
Fixpoint prefix (p s : pystr) : bool :=
  match p, s with
  | [], _ => true
  | _ :: _, [] => false
  | a :: p', b :: s' => (a =? b)%N && prefix p' s'
  end.

(** [contains p s]: the Python test [p in s] on two strings. *)
Fixpoint contains (p s : pystr) : bool :=
  prefix p s ||
  match s with
  | [] => false
  | _ :: s' => contains p s'
  end.

(** ** Character classes of CPython 3.11 (Unicode 14.0.0) *)

(** [str.isspace], which is also the class [\s] of [re] on [str]
    patterns and the set removed by [str.strip()]. *)
Definition is_space (c : N) : bool :=
  ((9 <=? c) && (c <=? 13) || (28 <=? c) && (c <=? 32) ||
   (c =? 133) || (c =? 160) || (c =? 5760) ||
   (8192 <=? c) && (c <=? 8202) ||
   (c =? 8232) || (c =? 8233) || (c =? 8239) || (c =? 8287) || (c =? 12288))%N.

(** The code points of the digit zero of every decimal script (general
    category Nd); each is followed by its digits one to nine. *)
Definition decimal_zeros : list N :=
  [48; 1632; 1776; 1984; 2406; 2534; 2662; 2790; 2918; 3046; 3174; 3302;
   3430; 3558; 3664; 3792; 3872; 4160; 4240; 6112; 6160; 6470; 6608; 6784;
   6800; 6992; 7088; 7232; 7248; 42528; 43216; 43264; 43472; 43504; 43600;
   44016; 65296; 66720; 68912; 69734; 69872; 69942; 70096; 70384; 70736;
   70864; 71248; 71360; 71472; 71904; 72016; 72784; 73040; 73120; 92768;
   92864; 93008; 120782; 120792; 120802; 120812; 120822; 123200; 123632;
   125264; 130032]%N.

(** The value of a decimal digit, as [int()] reads it. *)
Definition digit_value (c : N) : option N :=
  match find (fun z => (z <=? c) && (c <? z + 10))%N decimal_zeros with
  | Some z => Some (c - z)%N
  | None => None
  end.

(** The class [\d] of [re] on [str] patterns. *)
Definition is_digit (c : N) : bool :=
  match digit_value c with Some _ => true | None => false end.

(** [str.lower()], one code point at a time.  The table is exact for every
    code point whose lower-case form has a character below U+0100: the
    Basic Latin and Latin-1 capitals, U+0130, U+0178, U+1E9E, U+212A and
    U+212B.  Every other cased letter is left as it is; Python maps it to
    letters above U+00FF, and neither those nor the letter itself occur in
    any of the phrases that the code looks for in lower-cased text, all of
    which are written in Latin-1. *)
Definition lower_char (c : N) : list N :=
  if ((65 <=? c) && (c <=? 90))%N then [(c + 32)%N]
  else if ((192 <=? c) && (c <=? 222) && negb (c =? 215))%N then [(c + 32)%N]
  else if (c =? 304)%N then [105; 775]%N
  else if (c =? 376)%N then [255%N]
  else if (c =? 7838)%N then [223%N]
  else if (c =? 8490)%N then [107%N]
  else if (c =? 8491)%N then [229%N]
  else [c].

Definition lower (s : pystr) : pystr := flat_map lower_char s.

(** [int(s)] on a non-empty run of decimal digits (what [\d+] captures).
    CPython's configurable limit on the length of such a string
    ([sys.set_int_max_str_digits]) is an interpreter setting and is not
    part of the model. *)
Definition int_of_digits (s : pystr) : Z :=
  Z.of_N (fold_left (fun acc c =>
            match digit_value c with
            | Some d => (10 * acc + d)%N
            | None => acc
            end) s 0%N).

(** [s.strip()]. *)
Fixpoint lstrip (s : pystr) : pystr :=
  match s with
  | c :: s' => if is_space c then lstrip s' else s
  | [] => []
  end.

Definition strip (s : pystr) : pystr := rev (lstrip (rev (lstrip s))).

End Text.
Export Text.

(* ------------------------------------------------------------------ *)
(** * Regular expressions: the fragment of [re] that the code uses *)
(* ------------------------------------------------------------------ *)

Module Re.

Inductive cclass :=
| Chars (cs : list N)      (* a literal character or a set [..] *)
| WhiteSpace               (* \s *)
| DecimalDigit.            (* \d *)

Definition in_class (k : cclass) (c : N) : bool :=
  match k with
  | Chars cs => existsb (N.eqb c) cs
  | WhiteSpace => is_space c
  | DecimalDigit => is_digit c
  end.

Inductive regex :=
| Eps
| Chr (k : cclass)
| Seq (r1 r2 : regex)
| Alt (r1 r2 : regex)      (* r1|r2, r1 tried first *)
| Opt (r : regex)          (* (?:r)?, greedy *)
| Star (k : cclass)        (* k*, greedy *)
| Plus (k : cclass)        (* k+, greedy *)
| Group (r : regex).       (* (r), capturing group 1 *)

(** A literal run of characters. *)
Fixpoint lit (s : pystr) : regex :=
  match s with
  | [] => Eps
  | [c] => Chr (Chars [c])
  | c :: s' => Seq (Chr (Chars [c])) (lit s')
  end.

Fixpoint seq (rs : list regex) : regex :=
  match rs with
  | [] => Eps
  | [r] => r
  | r :: rs' => Seq r (seq rs')
  end.

Section Backtrack.
Variable A : Type.

(** Greedy repetition of a class: the longest run first, then shorter
    ones, as the backtracking matcher of [re] tries them. *)
Fixpoint star (k : cclass) (s : pystr) (kont : pystr -> option A) : option A :=
  match s with
  | c :: s' =>
      if in_class k c then
        match star k s' kont with
        | Some x => Some x
        | None => kont s
        end
      else kont s
  | [] => kont s
  end.

(** [bt r s g kont]: match [r] at the head of [s] with group 1 holding
    [g]; on success pass the rest of the text and the group to [kont],
    and on its failure try the next alternative. *)
Fixpoint bt (r : regex) (s : pystr) (g : pystr)
         (kont : pystr -> pystr -> option A) : option A :=
  match r with
  | Eps => kont s g
  | Chr k =>
      match s with
      | c :: s' => if in_class k c then kont s' g else None
      | [] => None
      end
  | Seq r1 r2 => bt r1 s g (fun s' g' => bt r2 s' g' kont)
  | Alt r1 r2 =>
      match bt r1 s g kont with
      | Some x => Some x
      | None => bt r2 s g kont
      end
  | Opt r1 =>
      match bt r1 s g kont with
      | Some x => Some x
      | None => kont s g
      end
  | Star k => star k s (fun s' => kont s' g)
  | Plus k =>
      match s with
      | c :: s' => if in_class k c then star k s' (fun s'' => kont s'' g) else None
      | [] => None
      end
  | Group r1 =>
      bt r1 s g (fun s' _ => kont s' (firstn (length s - length s') s))
  end.
End Backtrack.

(** [match_at r s]: group 1 of the match of [r] that starts at the head of
    [s], if there is one. *)
Definition match_at (r : regex) (s : pystr) : option pystr :=
  bt r s [] (fun _ g => Some g).

(** [re.search(r, s)]: the match at the leftmost position that has one;
    the result is the text of group 1. *)
Fixpoint search (r : regex) (s : pystr) : option pystr :=
  match match_at r s with
  | Some g => Some g
  | None =>
      match s with
      | [] => None
      | _ :: s' => search r s'
      end
  end.

End Re.

(* ------------------------------------------------------------------ *)
(** * format_export_payload (functions.py) *)
(* ------------------------------------------------------------------ *)

Module Payload.
Import Re.

Local Open Scope string_scope.

Record payload := {
  user_id : Z;
  description : pystr;
  analysis_type : string;
  conclusion : string;
  priority : string;
  automatic_pipeline : bool;
  offense_group : string;
  offense_name : string;
  related_analyses : list Z
}.

(** [re.sub(r'[#\*\_]', '', description)]. *)
Definition markdown_marker (c : N) : bool :=
  ((c =? 35) || (c =? 42) || (c =? 95))%N.

Definition sanitize (description : pystr) : pystr :=
  filter (fun c => negb (markdown_marker c)) description.

Definition error_indicators : list pystr :=
  [ U "Não consigo tankar este caso";
    U "An error occurred";
    U "muitas transações";
    U "context_length_exceeded";
    U "token limit";
    U "chame um analista humano" ].

(** [any(indicator.lower() in clean_description.lower() for ...)]. *)
Definition has_error (clean_description : pystr) : bool :=
  existsb (fun indicator => contains (lower indicator) (lower clean_description))
          error_indicators.

Definition cls (s : string) : regex := Chr (Chars (U s)).
Definition word (s : string) : regex := lit (U s).
Definition ws1 : regex := Plus WhiteSpace.
Definition ws0 : regex := Star WhiteSpace.

(** The patterns are quoted with blanks between their pieces.
    The tail that both share:  (\d+) (?: / | \s* de \s* ) 10  *)
Definition out_of_ten : list regex :=
  [ Group (Plus DecimalDigit);
    Alt (word "/") (seq [ws0; word "de"; ws0]);
    word "10" ].

(** The first pattern:
      (?: [Rr]isco \s+ (?: de \s+ [Ll]avagem \s+ (?: de \s+ )? [Dd]inheiro )?
        | [Cc]lassificação \s+ (?: de \s+ )? [Rr]isco )
      :? \s* (\d+) (?: / | \s* de \s* ) 10  *)
Definition risk_score_pattern : regex :=
  seq ([ Alt (seq [ cls "Rr"; word "isco"; ws1;
                    Opt (seq [ word "de"; ws1; cls "Ll"; word "avagem"; ws1;
                               Opt (seq [word "de"; ws1]);
                               cls "Dd"; word "inheiro" ]) ])
             (seq [ cls "Cc"; word "lassificação"; ws1;
                    Opt (seq [word "de"; ws1]);
                    cls "Rr"; word "isco" ]);
         Opt (word ":"); ws0 ] ++ out_of_ten)%list.

(** The second pattern:  [Ss]core :? \s* (\d+) (?: / | \s* de \s* ) 10  *)
Definition alt_pattern : regex :=
  seq ([ cls "Ss"; word "core"; Opt (word ":"); ws0 ] ++ out_of_ten)%list.

(** The value of [risk_score] once both searches have been tried. *)
Definition extract_risk_score (clean_description : pystr) : Z :=
  match search risk_score_pattern clean_description with
  | Some g => int_of_digits g
  | None =>
      match search alt_pattern clean_description with
      | Some g => int_of_digits g
      | None => 0%Z
      end
  end.

Definition medium_note : pystr :=
  ([10; 10]%N ++ U "OBS: Caso de médio risco que requer monitoramento contínuo.")%list.

Definition medium_high_note : pystr :=
  ([10; 10]%N ++
   U "OBS: Caso de risco médio-alto que requer validação do negócio, sem necessidade de bloqueio temporário.")%list.

Definition append_once (marker note clean_description : pystr) : pystr :=
  if contains marker clean_description then clean_description
  else (clean_description ++ note)%list.

(** The [if risk_score <= 5 ... else] chain: conclusion, priority and the
    description with its note. *)
Definition classify (risk_score : Z) (clean_description : pystr)
  : string * string * pystr :=
  if (risk_score <=? 5)%Z then ("normal", "high", clean_description)
  else if (risk_score <=? 6)%Z then
    ("normal", "high",
     append_once (U "Caso de médio risco") medium_note clean_description)
  else if (risk_score <=? 8)%Z then
    ("suspicious", "mid",
     append_once (U "Caso de risco médio-alto") medium_high_note clean_description)
  else if (risk_score <=? 9)%Z then ("suspicious", "high", clean_description)
  else ("offense", "high", clean_description).

(** The pair that the score table gives. *)
Definition mapped (risk_score : Z) (clean_description : pystr) : string * string :=
  fst (classify risk_score clean_description).

(** [if "normalizar o caso" in clean_description.lower() and
        conclusion != "offense": conclusion = "normal"]. *)
Definition override (conclusion : string) (clean_description : pystr) : string :=
  if contains (U "normalizar o caso") (lower clean_description)
     && negb (conclusion =? "offense")
  then "normal" else conclusion.

(** The local variables of [format_export_payload] when the payload is
    built; [risk_score] is bound only on the branch that extracts it. *)
Record locals := {
  clean_description : pystr;
  has_error_flag : bool;
  risk_score : option Z;
  l_conclusion : string;
  l_priority : string
}.

Definition format_export_locals (description : pystr) : locals :=
  let clean := sanitize description in
  if has_error clean then
    {| clean_description := clean; has_error_flag := true; risk_score := None;
       l_conclusion := ""; l_priority := "high" |}
  else
    let score := extract_risk_score clean in
    let '(c, p, clean') := classify score clean in
    {| clean_description := clean'; has_error_flag := false;
       risk_score := Some score;
       l_conclusion := override c clean'; l_priority := p |}.

Definition format_export_payload (uid : Z) (description : pystr)
           (business_validation : bool) : payload :=
  let l := format_export_locals description in
  {| user_id := uid;
     description := clean_description l;
     analysis_type := "manual";
     conclusion := l_conclusion l;
     priority := l_priority l;
     automatic_pipeline := true;
     offense_group := "illegal_activity";
     offense_name := "money_laundering";
     related_analyses := [] |}.

End Payload.

(* ------------------------------------------------------------------ *)
(** * Python values and exceptions *)
(* ------------------------------------------------------------------ *)

Module Py.

Inductive exn :=
| TypeError | AttributeError | KeyError | IndexError | ValueError
| OtherException.

(** A computation that returns a value or raises. *)
Inductive result (A : Type) :=
| Ok (a : A)
| Raise (e : exn).
Arguments Ok {A} a.
Arguments Raise {A} e.

Definition bind {A B} (m : result A) (f : A -> result B) : result B :=
  match m with
  | Ok a => f a
  | Raise e => Raise e
  end.

Declare Scope py_scope.
Delimit Scope py_scope with py.
Notation "x <- m ;; k" := (bind m (fun x => k))
  (at level 61, m at next level, right associativity) : py_scope.
Notation "' pat <- m ;; k" := (bind m (fun x => match x with pat => k end))
  (at level 61, pat pattern, m at next level, right associativity) : py_scope.
Local Open Scope py_scope.

Fixpoint mapM {A B} (f : A -> result B) (l : list A) : result (list B) :=
  match l with
  | [] => Ok []
  | x :: l' => y <- f x ;; ys <- mapM f l' ;; Ok (y :: ys)
  end.

#[local] Set Warnings "-register-all".

(** The values that a decoded JSON document or a warehouse row can hold.
    A number is an [int] or a [float], kept by its value; NaN and the
    infinities are not modelled.  A [dict] keeps its items in order. *)
Inductive pyval :=
| PNone
| PBool (b : bool)
| PNum (q : Q)
| PStr (s : pystr)
| PList (l : list pyval)
| PDict (d : list (pystr * pyval)).

Definition PS (s : string) : pyval := PStr (U s).

(** [bool(v)]. *)
Definition truthy (v : pyval) : bool :=
  match v with
  | PNone => false
  | PBool b => b
  | PNum q => negb (Qeq_bool q 0)
  | PStr s => match s with [] => false | _ => true end
  | PList l => match l with [] => false | _ => true end
  | PDict d => match d with [] => false | _ => true end
  end.

Fixpoint lookup (k : pystr) (d : list (pystr * pyval)) : option pyval :=
  match d with
  | [] => None
  | (k', v) :: d' => if pystr_eqb k' k then Some v else lookup k d'
  end.

(** [v.get(k, default)]: only a [dict] has the method. *)
Definition py_get (v : pyval) (k : string) (default : pyval) : result pyval :=
  match v with
  | PDict d =>
      Ok (match lookup (U k) d with Some x => x | None => default end)
  | _ => Raise AttributeError
  end.

(** [v.keys()]. *)
Definition py_keys (v : pyval) : result (list pystr) :=
  match v with
  | PDict d => Ok (map fst d)
  | _ => Raise AttributeError
  end.

(** [k in v] for a string [k]: key of a dict, element of a list, part of
    a string; other values are not containers. *)
Definition py_in (k : string) (v : pyval) : result bool :=
  match v with
  | PDict d => Ok (match lookup (U k) d with Some _ => true | None => false end)
  | PList l =>
      Ok (existsb (fun x => match x with PStr s => pystr_eqb s (U k) | _ => false end) l)
  | PStr s => Ok (contains (U k) s)
  | _ => Raise TypeError
  end.

(** [v[k]] for a string [k]. *)
Definition py_getitem (v : pyval) (k : string) : result pyval :=
  match v with
  | PDict d =>
      match lookup (U k) d with Some x => Ok x | None => Raise KeyError end
  | _ => Raise TypeError
  end.

(** [v[0]]. *)
Definition py_index0 (v : pyval) : result pyval :=
  match v with
  | PList (x :: _) => Ok x
  | PList [] => Raise IndexError
  | PStr (c :: _) => Ok (PStr [c])
  | PStr [] => Raise IndexError
  | PDict _ => Raise KeyError
  | _ => Raise TypeError
  end.

(** [len(v)]. *)
Definition py_len (v : pyval) : result nat :=
  match v with
  | PList l => Ok (length l)
  | PStr s => Ok (length s)
  | PDict d => Ok (length d)
  | _ => Raise TypeError
  end.

(** [v[:n]]. *)
Definition py_slice (n : nat) (v : pyval) : result pyval :=
  match v with
  | PList l => Ok (PList (firstn n l))
  | PStr s => Ok (PStr (firstn n s))
  | _ => Raise TypeError
  end.

(** The items that [for x in v] visits. *)
Definition py_iter (v : pyval) : result (list pyval) :=
  match v with
  | PList l => Ok l
  | PStr s => Ok (map (fun c => PStr [c]) s)
  | PDict d => Ok (map (fun kv => PStr (fst kv)) d)
  | _ => Raise TypeError
  end.

(** [v == n] for a number [n]. *)
Definition py_eq_num (v : pyval) (n : Q) : bool :=
  match v with
  | PNum q => Qeq_bool q n
  | PBool b => Qeq_bool (if b then 1 else 0) n
  | _ => false
  end.


End Py.
Export Py.

(* ------------------------------------------------------------------ *)
(** * bdc_utils.py *)
(* ------------------------------------------------------------------ *)

Module Bdc.
Local Open Scope py_scope.
Local Open Scope string_scope.

(** [re.sub(r'\D', '', document)]. *)
Definition sanitize_document (document : pystr) : pystr :=
  filter is_digit document.

(** What [requests.post], [raise_for_status] and [response.json()] do for
    one request: raise a [RequestException] (no connection, an HTTP error
    status and, in current releases of requests, a body that does not
    decode), raise something else, or give the decoded body. *)
Inductive http_outcome :=
| RequestFailed
| Crashed
| Body (json : pyval).

(** [fetch_bdc_data]: a [RequestException] is caught and [None] returned. *)
Definition fetch_bdc_data (post : pystr -> http_outcome)
           (document_number : pystr) : result pyval :=
  match post document_number with
  | RequestFailed => Ok PNone
  | Crashed => Raise OtherException
  | Body json => Ok json
  end.

Definition no_result : pyval := PDict [(U "Result", PList [])].

(** [analyze_document].  The counts that it prints are computed as the
    source computes them, since each can raise. *)
Definition analyze_document (post : pystr -> http_outcome)
           (document : pystr) : result pyval :=
  let sanitized_doc := sanitize_document document in
  result <- fetch_bdc_data post sanitized_doc ;;
  _ <- (if truthy result then
          _ <- py_get result "Result" (PList []) ;;
          found <- py_get result "Result" PNone ;;
          if truthy found then
            results <- py_getitem result "Result" ;;
            person_data <- py_index0 results ;;
            processes_data <- py_get person_data "Processes" (PDict []) ;;
            processes <- (if truthy processes_data
                          then py_get processes_data "Lawsuits" (PList [])
                          else Ok (PList [])) ;;
            kyc_data <- py_get person_data "KycData" (PDict []) ;;
            _ <- (if truthy kyc_data then
                    pep <- py_get kyc_data "PEPHistory" (PList []) ;;
                    _ <- py_len pep ;;
                    sanc <- py_get kyc_data "SanctionsHistory" (PList []) ;;
                    _ <- py_len sanc ;;
                    _ <- py_get kyc_data "IsCurrentlyPEP" (PBool false) ;;
                    _ <- py_get kyc_data "IsCurrentlySanctioned" (PBool false) ;;
                    Ok tt
                  else Ok tt) ;;
            _ <- py_len processes ;;
            Ok tt
          else Ok tt
        else Ok tt) ;;
  if negb (truthy result) then Ok no_result else Ok result.

End Bdc.

(* ------------------------------------------------------------------ *)
(** * analyze_counterparties (functions.py) *)
(* ------------------------------------------------------------------ *)

Module Counterparty.
Import Bdc.
Local Open Scope py_scope.
Local Open Scope string_scope.

Inductive risk := BAIXO | BAIXO_MEDIO | MEDIO | ALTO.

(** The text that the source stores for each level. *)
Definition risk_text (r : risk) : pystr :=
  match r with
  | BAIXO => U "BAIXO"
  | BAIXO_MEDIO => U "BAIXO-MÉDIO"
  | MEDIO => U "MÉDIO"
  | ALTO => U "ALTO"
  end.

(** The [analysis] dict of [extract_processes_and_sanctions]. *)
Record analysis := {
  document : pyval;
  name : pyval;
  processes : list pyval;
  sanctions : list pyval;
  has_processes : bool;
  has_sanctions : bool;
  risk_level : risk
}.

Definition initial_analysis : analysis :=
  {| document := PNone; name := PNone; processes := []; sanctions := [];
     has_processes := false; has_sanctions := false; risk_level := BAIXO |}.

Definition entry (k : string) (v : pyval) : pystr * pyval := (U k, v).

Definition process_info (process : pyval) : result pyval :=
  number <- py_get process "Number" (PS "") ;;
  court <- py_get process "CourtName" (PS "") ;;
  subject <- py_get process "MainSubject" (PS "") ;;
  type <- py_get process "Type" (PS "") ;;
  court_level <- py_get process "CourtLevel" (PS "") ;;
  court_type <- py_get process "CourtType" (PS "") ;;
  district <- py_get process "CourtDistrict" (PS "") ;;
  Ok (PDict [ entry "process_number" number; entry "court" court;
              entry "subject" subject; entry "type" type;
              entry "court_level" court_level; entry "court_type" court_type;
              entry "district" district ]).

Definition pep_record (pep : pyval) : result pyval :=
  description <- py_get pep "Description" (PS "") ;;
  Ok (PDict [ entry "type" (PS "PEP"); entry "description" description;
              entry "source" (PS "PEP Database") ]).

(** The record appended for a sanction that passes the filter. *)
Definition sanction_record (sanction : pyval) : result pyval :=
  match_rate <- py_get sanction "MatchRate" (PNum 0) ;;
  type <- py_get sanction "Type" (PS "") ;;
  standardized <- py_get sanction "StandardizedSanctionType" (PS "") ;;
  source <- py_get sanction "Source" (PS "") ;;
  details <- py_get sanction "Details" PNone ;;
  description <- (if truthy details then
                    d <- py_get sanction "Details" (PDict []) ;;
                    py_get d "WarrantDescription" (PS "")
                  else Ok (PS "")) ;;
  Ok (PDict [ entry "type" type; entry "standardized_type" standardized;
              entry "source" source; entry "description" description;
              entry "match_rate" match_rate ]).

(** What the log line of a rejected sanction evaluates. *)
Definition rejected_sanction_log (sanction : pyval) : result unit :=
  _ <- py_get sanction "Type" (PS "") ;;
  _ <- py_get sanction "Source" (PS "") ;;
  d1 <- py_get sanction "Details" (PDict []) ;;
  _ <- py_get d1 "OriginalName" (PS "") ;;
  d2 <- py_get sanction "Details" (PDict []) ;;
  _ <- py_get d2 "SanctionName" (PS "") ;;
  Ok tt.

(** One turn of the loop over [SanctionsHistory]: the records to append. *)
Definition visit_sanction (sanction : pyval) : result (list pyval) :=
  match_rate <- py_get sanction "MatchRate" (PNum 0) ;;
  _ <- py_get sanction "Type" (PS "") ;;
  if py_eq_num match_rate 100 then
    r <- sanction_record sanction ;; Ok [r]
  else
    _ <- rejected_sanction_log sanction ;; Ok [].

Definition current_pep : pyval :=
  PDict [ entry "type" (PS "Current PEP");
          entry "description" (PS "Currently a Politically Exposed Person");
          entry "source" (PS "PEP Database") ].

Definition current_sanction : pyval :=
  PDict [ entry "type" (PS "Current Sanction");
          entry "description" (PS "Currently under sanctions");
          entry "source" (PS "Sanctions Database") ].

(** [d.get(k, default) if d else default]. *)
Definition get_if (d : pyval) (k : string) (default : pyval) : result pyval :=
  if truthy d then py_get d k default else Ok default.

(** The history entries that the loop over [SanctionsHistory] visits. *)
Definition sanctions_history_items (kyc_data : pyval) : result (list pyval) :=
  sanctions_history <- get_if kyc_data "SanctionsHistory" (PList []) ;;
  if truthy sanctions_history then py_iter sanctions_history else Ok [].

Definition risk_of (has_sanctions has_processes : bool) (n_processes : nat) : risk :=
  if has_sanctions then ALTO
  else if has_processes && (3 <? n_processes)%nat then MEDIO
  else if has_processes then BAIXO_MEDIO
  else BAIXO.

(** The sanctions list collected from [KycData]. *)
Definition collect_sanctions (kyc_data : pyval) : result (list pyval) :=
  pep_history <- get_if kyc_data "PEPHistory" (PList []) ;;
  peps <- (if truthy pep_history then
             items <- py_iter pep_history ;; mapM pep_record items
           else Ok []) ;;
  history <- sanctions_history_items kyc_data ;;
  kept <- mapM visit_sanction history ;;
  flags <- (if truthy kyc_data then
              is_currently_pep <- py_get kyc_data "IsCurrentlyPEP" (PBool false) ;;
              is_currently_sanctioned <-
                py_get kyc_data "IsCurrentlySanctioned" (PBool false) ;;
              Ok ((if truthy is_currently_pep then [current_pep] else []) ++
                  (if truthy is_currently_sanctioned then [current_sanction] else []))%list
            else Ok []) ;;
  Ok (peps ++ concat kept ++ flags)%list.

(** [person_data = results[0]], after the two early returns. *)
Definition person_of (bdc_result : pyval) : result (option pyval) :=
  missing <- (if negb (truthy bdc_result) then Ok true
              else b <- py_in "Result" bdc_result ;; Ok (negb b)) ;;
  if (missing : bool) then Ok None
  else
    results <- py_get bdc_result "Result" (PList []) ;;
    if negb (truthy results) then Ok None
    else person_data <- py_index0 results ;; Ok (Some person_data).

Definition extract_processes_and_sanctions (bdc_result : pyval) : result analysis :=
  person <- person_of bdc_result ;;
  match person with
  | None => Ok initial_analysis
  | Some person_data =>
      _ <- py_keys person_data ;;
      basic_data <- py_get person_data "BasicData" (PDict []) ;;
      '(doc, nm) <- (if truthy basic_data then
                       d <- py_get basic_data "TaxIdNumber" (PS "") ;;
                       n <- py_get basic_data "Name" (PS "") ;;
                       Ok (d, n)
                     else Ok (PNone, PNone)) ;;
      processes_data <- py_get person_data "Processes" (PDict []) ;;
      lawsuits <- get_if processes_data "Lawsuits" (PList []) ;;
      _ <- py_len lawsuits ;;
      infos <- (if truthy lawsuits then
                  processes_to_add <- py_slice 10 lawsuits ;;
                  items <- py_iter processes_to_add ;;
                  mapM process_info items
                else Ok []) ;;
      kyc_data <- py_get person_data "KycData" (PDict []) ;;
      collected <- collect_sanctions kyc_data ;;
      let has_p := truthy lawsuits in
      let has_s := match collected with [] => false | _ => true end in
      Ok {| document := doc; name := nm;
            processes := infos; sanctions := collected;
            has_processes := has_p; has_sanctions := has_s;
            risk_level := risk_of has_s has_p (length infos) |}
  end.

(** ** Selection of the top three records *)

Section StableSort.
Variable A : Type.

(** [x] enters before the first record whose amount is not greater
    than its own. *)
Fixpoint insert_desc (x : Q * A) (l : list (Q * A)) : list (Q * A) :=
  match l with
  | [] => [x]
  | y :: l' =>
      if Qle_bool (fst y) (fst x) then x :: l
      else y :: insert_desc x l'
  end.

(** [sorted(l, key=..., reverse=True)] on records paired with their
    keys: descending, and stable. *)
Definition sorted_desc (l : list (Q * A)) : list (Q * A) :=
  fold_right insert_desc [] l.
End StableSort.

Inductive direction := CASH_IN | CASH_OUT.

(** An analysis with the four fields that the loop adds to it. *)
Record profile := {
  found : analysis;
  transaction_amount : pyval;
  transaction_date : pyval;
  transaction_type : direction;
  party_name : pyval
}.

Record summary := {
  total_counterparties_analyzed : nat;
  counterparties_with_processes : nat;
  counterparties_with_sanctions : nat;
  high_risk_counterparties : nat
}.

Record counterparty_analysis := {
  top_cash_in_analysis : list profile;
  top_cash_out_analysis : list profile;
  analysis_enabled : bool;
  totals : summary
}.

Definition possible_fields : list string :=
  [ "party_document_number";
    "gateway_document_number"; "document_number"; "cpf"; "cnpj";
    "counterparty_document"; "payer_document"; "receiver_document";
    "origin_document"; "destination_document" ].

Definition incr (b : bool) (n : nat) : nat := if b then Datatypes.S n else n.

Definition is_high_risk (r : risk) : bool :=
  match r with ALTO | MEDIO => true | _ => false end.

(** The append and the four updates of the summary. *)
Definition record_profile (p : profile) (ca : counterparty_analysis)
  : counterparty_analysis :=
  let a := found p in
  let s := totals ca in
  {| top_cash_in_analysis :=
       match transaction_type p with
       | CASH_IN => top_cash_in_analysis ca ++ [p]
       | CASH_OUT => top_cash_in_analysis ca
       end;
     top_cash_out_analysis :=
       match transaction_type p with
       | CASH_IN => top_cash_out_analysis ca
       | CASH_OUT => top_cash_out_analysis ca ++ [p]
       end;
     analysis_enabled := analysis_enabled ca;
     totals :=
       {| total_counterparties_analyzed := Datatypes.S (total_counterparties_analyzed s);
          counterparties_with_processes :=
            incr (has_processes a) (counterparties_with_processes s);
          counterparties_with_sanctions :=
            incr (has_sanctions a) (counterparties_with_sanctions s);
          high_risk_counterparties :=
            incr (is_high_risk (risk_level a)) (high_risk_counterparties s) |} |}.

Section Analyze.
(** The module flag set by the import of bdc_utils. *)
Variable BDC_AVAILABLE : bool.
(** The HTTP exchange of each lookup, by direction and rank. *)
Variable post : direction -> nat -> pystr -> http_outcome.
(** [float(s)] on a string: its number, or nothing when it raises. *)
Variable float_of_str : pystr -> option Q.
(** [str(v)] on a value that is not a string. *)
Variable str_of_value : pyval -> pystr.

(** [float(v)]. *)
Definition py_float (v : pyval) : result Q :=
  match v with
  | PNum q => Ok q
  | PBool b => Ok (if b then 1 else 0)
  | PStr s =>
      match float_of_str s with Some q => Ok q | None => Raise ValueError end
  | _ => Raise TypeError
  end.

(** [str(v)]. *)
Definition py_str (v : pyval) : pystr :=
  match v with
  | PStr s => s
  | _ => str_of_value v
  end.

(** The sort key, [float(x.get('pix_amount', 0))]. *)
Definition amount_key (x : pyval) : result Q :=
  v <- py_get x "pix_amount" (PNum 0) ;; py_float v.

Definition with_key (x : pyval) : result (Q * pyval) :=
  k <- amount_key x ;; Ok (k, x).

(** [sorted(l, key=..., reverse=True)[:3]]. *)
Definition top3 (l : list pyval) : result (list pyval) :=
  keyed <- mapM with_key l ;;
  Ok (firstn 3 (map snd (sorted_desc keyed))).

Fixpoint first_document (fields : list string) (transaction : pyval)
  : result (option pystr) :=
  match fields with
  | [] => Ok None
  | field :: rest =>
      present <- py_in field transaction ;;
      if (present : bool) then
        v <- py_getitem transaction field ;;
        if truthy v then Ok (Some (strip (py_str v)))
        else first_document rest transaction
      else first_document rest transaction
  end.

Definition extract_document_from_transaction (transaction : pyval)
  : result (option pystr) :=
  first_document possible_fields transaction.

(** The body of the [try] up to the append. *)
Definition lookup_profile (d : direction) (i : nat) (transaction : pyval)
           (document : pystr) : result profile :=
  bdc_result <- analyze_document (post d i) document ;;
  a <- extract_processes_and_sanctions bdc_result ;;
  amount <- py_get transaction "pix_amount" (PNum 0) ;;
  date <- py_get transaction "created_at" (PS "") ;;
  party <- py_get transaction "party" (PS "") ;;
  Ok {| found := a; transaction_amount := amount; transaction_date := date;
        transaction_type := d; party_name := party |}.

(** One turn of a loop: [if document: try: ... except Exception: log]. *)
Definition visit (d : direction) (i : nat) (transaction : pyval)
           (ca : counterparty_analysis) : result counterparty_analysis :=
  document <- extract_document_from_transaction transaction ;;
  match document with
  | Some (c :: doc) =>
      match lookup_profile d i transaction (c :: doc) with
      | Ok p => Ok (record_profile p ca)
      | Raise _ => Ok ca
      end
  | _ => Ok ca
  end.

(** [for i, transaction in enumerate(top): ...], from rank [i]. *)
Fixpoint visit_all (d : direction) (i : nat) (top : list pyval)
         (ca : counterparty_analysis) : result counterparty_analysis :=
  match top with
  | [] => Ok ca
  | transaction :: rest =>
      ca' <- visit d i transaction ca ;;
      visit_all d (Datatypes.S i) rest ca'
  end.

Definition empty_analysis : counterparty_analysis :=
  {| top_cash_in_analysis := []; top_cash_out_analysis := [];
     analysis_enabled := BDC_AVAILABLE;
     totals := {| total_counterparties_analyzed := 0;
                  counterparties_with_processes := 0;
                  counterparties_with_sanctions := 0;
                  high_risk_counterparties := 0 |} |}.

Definition analyze_counterparties (cash_in_list cash_out_list : list pyval)
           (uid : Z) : result counterparty_analysis :=
  if negb BDC_AVAILABLE then Ok empty_analysis
  else
    top_cash_in <- top3 cash_in_list ;;
    ca1 <- visit_all CASH_IN 0 top_cash_in empty_analysis ;;
    top_cash_out <- top3 cash_out_list ;;
    visit_all CASH_OUT 0 top_cash_out ca1.
End Analyze.

End Counterparty.

(* ------------------------------------------------------------------ *)
(** * merchant_report and cardholder_report (functions.py) *)
(* ------------------------------------------------------------------ *)

Module Report.
Import Bdc Counterparty.
Local Open Scope py_scope.
Local Open Scope string_scope.

(** A pandas [DataFrame]: named columns and rows of cells. *)
Record dataframe := {
  columns : list pystr;
  rows : list (list pyval)
}.

(** [pd.DataFrame()]. *)
Definition empty_frame : dataframe := {| columns := []; rows := [] |}.

(** [df.empty]: no column or no row. *)
Definition df_empty (df : dataframe) : bool :=
  match columns df, rows df with
  | [], _ => true
  | _, [] => true
  | _, _ => false
  end.

(** [df.to_dict(orient='records')]. *)
Definition to_dict_records (df : dataframe) : list pyval :=
  map (fun r => PDict (combine (columns df) r)) (rows df).

Fixpoint index_of (c : pystr) (cs : list pystr) : option nat :=
  match cs with
  | [] => None
  | c' :: cs' =>
      if pystr_eqb c' c then Some 0%nat
      else match index_of c cs' with
           | Some n => Some (Datatypes.S n)
           | None => None
           end
  end.

(** [df[c]]: the cells of a column; a [KeyError] when there is none. *)
Definition column (df : dataframe) (c : string) : result (list pyval) :=
  match index_of (U c) (columns df) with
  | Some n => Ok (map (fun r => nth n r PNone) (rows df))
  | None => Raise KeyError
  end.

(** [df[df[c] == s]]. *)
Definition where_eq (df : dataframe) (c s : string) : result dataframe :=
  match index_of (U c) (columns df) with
  | Some n =>
      Ok {| columns := columns df;
            rows := filter (fun r => match nth n r PNone with
                                     | PStr t => pystr_eqb t (U s)
                                     | _ => false
                                     end) (rows df) |}
  | None => Raise KeyError
  end.

(** The queries that the two builders send. *)
Inductive query :=
| MerchantReport | CardholderReport
| IssuingPayments | IssuingConcentration
| PixConcentration | CardholderConcentration
| OffenseAnalysis | OnlineStore | Phonecast | UserDevice
| Lawsuits | RiskTransactions | BusinessRelationships
| PrisonTransactions | SanctionsHistory | RiskPixTransfers | BetsPixTransfers.

Inductive query_outcome :=
| QueryError
| QueryRows (df : dataframe).

(** [execute_query]: an exception is logged and an empty frame returned. *)
Definition execute_query (o : query_outcome) : dataframe :=
  match o with
  | QueryError => empty_frame
  | QueryRows df => df
  end.

(** [float(v) if isinstance(v, (Decimal, float, int)) else v]. *)
Definition convert_value (v : pyval) : pyval :=
  match v with
  | PBool b => PNum (if b then 1 else 0)
  | _ => v
  end.

Definition convert_items (d : list (pystr * pyval)) : list (pystr * pyval) :=
  map (fun kv => (fst kv, convert_value (snd kv))) d.

(** [convert_decimals] on a list of records. *)
Definition convert_decimals (data : list pyval) : result (list pyval) :=
  mapM (fun item => match item with
                    | PDict d => Ok (PDict (convert_items d))
                    | _ => Raise AttributeError
                    end) data.

(** [df.to_dict(orient='records') if not df.empty else []]. *)
Definition records_or_empty (df : dataframe) : list pyval :=
  if df_empty df then [] else to_dict_records df.

(** [df.to_dict(orient='records')[0] if not df.empty else {}], then
    [convert_decimals] on that dict.  A frame that is not empty has a
    first row. *)
Definition first_record_or_empty (df : dataframe) : list (pystr * pyval) :=
  if df_empty df then []
  else match rows df with
       | r :: _ => convert_items (combine (columns df) r)
       | [] => []
       end.

(** The keys that both reports have; the profile is [merchant_info] in
    one and [cardholder_info] in the other. *)
Record report := {
  subject_info : list (pystr * pyval);
  total_cash_in_pix : pyval;
  total_cash_out_pix : pyval;
  total_cash_in_pix_atypical_hours : pyval;
  total_cash_out_pix_atypical_hours : pyval;
  issuing_concentration : list pyval;
  pix_cash_in : list pyval;
  pix_cash_out : list pyval;
  offense_history : list pyval;
  contacts : list pyval;
  devices : list pyval;
  lawsuit_data : list pyval;
  business_data : list pyval;
  prison_transactions : list pyval;
  sanctions_history : list pyval;
  denied_pix_transactions : list pyval;
  bets_pix_transfers : list pyval;
  counterparty_analysis_of : counterparty_analysis
}.

(** A merchant's report has three keys more. *)
Record merchant_dossier := {
  shared : report;
  transaction_concentration : list pyval;
  products_online : list pyval;
  denied_transactions : list pyval
}.

(** The PIX block: both frames and the four totals. *)
Record pix_block := {
  cash_in : dataframe;
  cash_out : dataframe;
  sum_in : pyval;
  sum_out : pyval;
  sum_in_atypical : pyval;
  sum_out_atypical : pyval
}.

Section Builders.
Variable BDC_AVAILABLE : bool.
Variable post : direction -> nat -> pystr -> http_outcome.
Variable float_of_str : pystr -> option Q.
Variable str_of_value : pyval -> pystr.
(** [DataFrame.round(2)] on one cell, and [Series.sum()]. *)
Variable round2 : pyval -> pyval.
Variable series_sum : list pyval -> pyval.
(** The warehouse: what each query returns for a user. *)
Variable warehouse : query -> Z -> query_outcome.

Definition run (q : query) (uid : Z) : dataframe :=
  execute_query (warehouse q uid).

Definition round_frame (df : dataframe) : dataframe :=
  {| columns := columns df; rows := map (map round2) (rows df) |}.

Definition pix_totals (pix_concentration : dataframe) : result pix_block :=
  if negb (df_empty pix_concentration) then
    ins <- where_eq pix_concentration "transaction_type" "Cash In" ;;
    outs <- where_eq pix_concentration "transaction_type" "Cash Out" ;;
    let cash_in := round_frame ins in
    let cash_out := round_frame outs in
    a <- column cash_in "pix_amount" ;;
    b <- column cash_out "pix_amount" ;;
    c <- column cash_in "pix_amount_atypical_hours" ;;
    d <- column cash_out "pix_amount_atypical_hours" ;;
    Ok {| cash_in := cash_in; cash_out := cash_out;
          sum_in := series_sum a; sum_out := series_sum b;
          sum_in_atypical := series_sum c; sum_out_atypical := series_sum d |}
  else
    Ok {| cash_in := empty_frame; cash_out := empty_frame;
          sum_in := PNum 0; sum_out := PNum 0;
          sum_in_atypical := PNum 0; sum_out_atypical := PNum 0 |}.

(** [convert_decimals(df.to_dict(orient='records') if not df.empty else [])]. *)
Definition converted (q : query) (uid : Z) : result (list pyval) :=
  convert_decimals (records_or_empty (run q uid)).

(** What both builders compute, given the profile and issuing queries. *)
Definition build (profile_query issuing_query : query) (uid : Z) : result report :=
  pix <- pix_totals (run PixConcentration uid) ;;
  let info := first_record_or_empty (run profile_query uid) in
  issuing <- converted issuing_query uid ;;
  cash_in_list <- convert_decimals (records_or_empty (cash_in pix)) ;;
  cash_out_list <- convert_decimals (records_or_empty (cash_out pix)) ;;
  offense <- converted OffenseAnalysis uid ;;
  contacts_list <- converted Phonecast uid ;;
  devices_list <- converted UserDevice uid ;;
  prison <- converted PrisonTransactions uid ;;
  sanctions_list <- converted SanctionsHistory uid ;;
  denied_pix <- converted RiskPixTransfers uid ;;
  bets <- converted BetsPixTransfers uid ;;
  ca <- analyze_counterparties BDC_AVAILABLE post float_of_str str_of_value
          cash_in_list cash_out_list uid ;;
  Ok {| subject_info := info;
        total_cash_in_pix := sum_in pix;
        total_cash_out_pix := sum_out pix;
        total_cash_in_pix_atypical_hours := sum_in_atypical pix;
        total_cash_out_pix_atypical_hours := sum_out_atypical pix;
        issuing_concentration := issuing;
        pix_cash_in := cash_in_list;
        pix_cash_out := cash_out_list;
        offense_history := offense;
        contacts := contacts_list;
        devices := devices_list;
        lawsuit_data := records_or_empty (run Lawsuits uid);
        business_data := records_or_empty (run BusinessRelationships uid);
        prison_transactions := prison;
        sanctions_history := sanctions_list;
        denied_pix_transactions := denied_pix;
        bets_pix_transfers := bets;
        counterparty_analysis_of := ca |}.

Definition merchant_report (uid : Z) (alert_type : pystr) : result merchant_dossier :=
  concentration <- converted CardholderConcentration uid ;;
  products <- converted OnlineStore uid ;;
  r <- build MerchantReport IssuingPayments uid ;;
  Ok {| shared := r;
        transaction_concentration := concentration;
        products_online := products;
        denied_transactions := records_or_empty (run RiskTransactions uid) |}.

Definition cardholder_report (uid : Z) (alert_type : pystr) : result report :=
  build CardholderReport IssuingConcentration uid.
End Builders.

End Report.

(* ------------------------------------------------------------------ *)
(** * format_cpf and convert_decimals (functions.py) *)
(* ------------------------------------------------------------------ *)

Module Helpers.
Import Report.
Local Open Scope py_scope.

(** [s.replace(c, '')] for a single character [c]. *)
Definition remove_char (c : N) (s : pystr) : pystr :=
  filter (fun x => negb (x =? c)%N) s.

(** [format_cpf]; [None] stays [None]. *)
Definition format_cpf (cpf : option pystr) : option pystr :=
  match cpf with
  | None => None
  | Some s =>
      let cpf := remove_char 45 (remove_char 46 s) in
      if (length cpf =? 11)%nat then
        Some (firstn 3 cpf ++ [46%N] ++ firstn 3 (skipn 3 cpf) ++ [46%N] ++
              firstn 3 (skipn 6 cpf) ++ [45%N] ++ firstn 2 (skipn 9 cpf))
      else Some cpf
  end.


End Helpers.

(* ------------------------------------------------------------------ *)
(** * gpt_utils.py and get_gpt_analysis *)
(* ------------------------------------------------------------------ *)

Module Gpt.

(** What the [try] block of [get_chatgpt_response] does for one call:
    the content of the first choice, or an exception, of which the code
    keeps [str(e)]. *)
Inductive completion :=
| Completed (content : pystr)
| Failed (error_message : pystr).

Definition gpt_4o : pystr := U "gpt-4o-2024-11-20".
Definition o3_mini : pystr := U "o3-mini-2025-01-31".

Definition context_length_message : pystr :=
  U "Opa! Não consigo tankar este caso, pois há muitas transações. Chame um analista humano - ou reptiliano - para resolver".

Section Client.
(** The completion service, by model and prompt. *)
Variable client : pystr -> pystr -> completion.

Definition get_chatgpt_response (prompt model : pystr) : pystr :=
  match client model prompt with
  | Completed content => strip content
  | Failed error_message =>
      if contains (U "context_length_exceeded") (lower error_message)
      then context_length_message
      else U "An error occurred: " ++ error_message
  end.

(** [get_gpt_analysis] (functions.py): the default model. *)
Definition get_gpt_analysis (prompt : pystr) : pystr :=
  get_chatgpt_response prompt gpt_4o.

Definition nl : pystr := [10%N].

Definition score_prompt (analysis : pystr) : pystr :=
  U "Com base na análise a seguir, classifique o risco de lavagem de dinheiro em uma escala de 1 a 10, "
  ++ U "onde 1-5 é baixo risco (normalização do caso), 6 é médio risco (normalização com monitoramento contínuo), "
  ++ U "7-8 é risco moderado (Suspicious Mid - requer validação adicional), 9 é alto risco (Suspicious High - requer validação adicional urgente), e 10 é risco extremo (Offense High - requer descredenciamento e reporte ao COAF)."
  ++ nl ++ nl ++ analysis ++ nl ++ nl
  ++ U "Responda apenas com: Risco de Lavagem de Dinheiro: [número]/10".

Definition decision_prompt (analysis : pystr) : pystr :=
  U "A partir da análise detalhada a seguir, por favor, em exatamente duas linhas, apresente a decisão final sobre o caso. "
  ++ U "Inclua o score de risco na sua decisão e mencione as principais alíneas da Carta Circular 4001 do BACEN identificadas. "
  ++ U "Caso haja necessidade de solicitar documentos (comprovante de endereço e de renda), inclua o pedido de forma concisa:"
  ++ nl ++ nl ++ analysis.

(** The analysis once the score line has been asked for, if it was. *)
Definition scored_analysis (prompt : pystr) : pystr :=
  let analysis := get_chatgpt_response prompt gpt_4o in
  if negb (contains (U "Risco de Lavagem de Dinheiro:") analysis) then
    analysis ++ nl ++ nl ++ get_chatgpt_response (score_prompt analysis) o3_mini
  else analysis.

Definition decision_heading : pystr :=
  nl ++ nl ++ U "Decisão Final do 03mini:" ++ nl.

Definition get_analysis_and_decision (prompt : pystr) : pystr :=
  let analysis := scored_analysis prompt in
  let decision := get_chatgpt_response (decision_prompt analysis) o3_mini in
  analysis ++ decision_heading ++ decision.
End Client.

End Gpt.

(* ------------------------------------------------------------------ *)
(** * analyze_user and the counters of run_bot (app.py) *)
(* ------------------------------------------------------------------ *)

Module App.
Import Bdc Counterparty Report Payload Gpt.
Local Open Scope py_scope.
Local Open Scope string_scope.

(** A flagged user: the keys of [user_data] that [analyze_user] reads.
    [features] and [business_validation] may be missing. *)
Record user := {
  flagged_id : Z;
  alert_type : pystr;
  features : option pystr;
  business_validation : option bool
}.

Section AnalyzeUser.
Variable BDC_AVAILABLE : bool.
Variable post : direction -> nat -> pystr -> http_outcome.
Variable float_of_str : pystr -> option Q.
Variable str_of_value : pyval -> pystr.
Variable round2 : pyval -> pyval.
Variable series_sum : list pyval -> pyval.
Variable warehouse : query -> Z -> query_outcome.
(** [generate_prompt] for the user's id and the merchant's or the
    cardholder's report, with the betting houses and the PEP data that
    [run_bot] fetched for that user; it can raise.  Its text goes to the
    completion service and nowhere else. *)
Variable generate_prompt :
  Z -> merchant_dossier + report -> pystr -> option pystr -> result pystr.
Variable client : pystr -> pystr -> completion.

(** The report that the prompt is written from: the merchant's when its
    profile is not empty, else the cardholder's. *)
Definition report_for (uid : Z) (alert : pystr) : result (merchant_dossier + report) :=
  merchant_data <- merchant_report BDC_AVAILABLE post float_of_str str_of_value
                     round2 series_sum warehouse uid alert ;;
  match subject_info (shared merchant_data) with
  | [] =>
      report_data <- cardholder_report BDC_AVAILABLE post float_of_str
                       str_of_value round2 series_sum warehouse uid alert ;;
      Ok (inr report_data)
  | _ :: _ => Ok (inl merchant_data)
  end.

Definition analyze_user (user_data : user) : result payload :=
  let uid := flagged_id user_data in
  report_data <- report_for uid (alert_type user_data) ;;
  prompt <- generate_prompt uid report_data (alert_type user_data)
                            (features user_data) ;;
  let gpt_analysis := get_gpt_analysis client prompt in
  let bv := match business_validation user_data with Some b => b | None => false end in
  Ok (format_export_payload uid gpt_analysis bv).
End AnalyzeUser.

(** ** The counters of [run_bot] *)

Record tallies := {
  analyzed_count : nat;
  suspicious_count : nat;
  risk_scores : list Z
}.

(** The score that the dashboard shows: the first pattern only, on the
    description of the payload. *)
Definition dashboard_score (description : pystr) : Z :=
  match Re.search risk_score_pattern description with
  | Some g => int_of_digits g
  | None => 0%Z
  end.

(** [risk_level] and [risk_badge] of the dashboard. *)
Definition risk_label (risk_score : Z) : pystr * string :=
  if (risk_score <=? 5)%Z then (U "Baixo Risco", "risk-badge-low")
  else if (risk_score <=? 6)%Z then (U "Médio Risco", "risk-badge-medium")
  else if (risk_score <=? 8)%Z then (U "Médio-Alto Risco", "risk-badge-high")
  else if (risk_score <=? 9)%Z then (U "Alto Risco", "risk-badge-high")
  else (U "Risco Extremo", "risk-badge-high").

(** [conclusion] and [conclusion_badge] of the dashboard. *)
Definition conclusion_label (p : payload) : string * string :=
  if conclusion p =? "normal" then
    if contains (U "Caso de médio risco") (description p)
    then ("Normal (monitorar)", "risk-badge-medium")
    else ("Normal", "risk-badge-low")
  else if conclusion p =? "suspicious" then
    if contains (U "suspicious mid") (description p)
       || contains (U "Caso de risco médio-alto") (description p)
    then ("Suspicious Mid", "risk-badge-high")
    else ("Suspicious High", "risk-badge-high")
  else if conclusion p =? "offense" then ("Offense High", "risk-badge-high")
  else ("Indefinido", "risk-badge-medium").

(** One turn of the loop over the flagged users.  [analyzed_count] grows
    first; [outcome] is what the statements up to [send_payload] give:
    an exception, caught by the [except] of the loop, or the payload that
    was sent.  What follows the two other counters only displays. *)
Definition count_user (outcome : result payload) (t : tallies) : tallies :=
  match outcome with
  | Raise _ =>
      {| analyzed_count := Datatypes.S (analyzed_count t);
         suspicious_count := suspicious_count t;
         risk_scores := risk_scores t |}
  | Ok export_payload =>
      {| analyzed_count := Datatypes.S (analyzed_count t);
         suspicious_count :=
           if conclusion export_payload =? "suspicious"
           then Datatypes.S (suspicious_count t) else suspicious_count t;
         risk_scores :=
           (risk_scores t ++ [dashboard_score (description export_payload)])%list |}
  end.

Definition run_bot_tallies (outcomes : list (result payload)) : tallies :=
  fold_left (fun t o => count_user o t) outcomes
            {| analyzed_count := 0; suspicious_count := 0; risk_scores := [] |}.

(** [sum(risk_scores) / len(risk_scores) if risk_scores else 0]. *)
Definition avg_score (t : tallies) : Q :=
  match risk_scores t with
  | [] => 0
  | _ :: _ =>
      inject_Z (fold_right Z.add 0%Z (risk_scores t))
      / inject_Z (Z.of_nat (length (risk_scores t)))
  end.

End App.

(* ------------------------------------------------------------------ *)
(** * What the properties are stated with *)
(* ------------------------------------------------------------------ *)

Module Terms.
Import Bdc Counterparty Payload.
Local Open Scope py_scope.
Local Open Scope string_scope.

(** The score table of the specification, row by row. *)
Inductive table_row : Z -> string * string -> Prop :=
| row_1_5 s : (1 <= s <= 5)%Z -> table_row s ("normal", "high")
| row_6 : table_row 6 ("normal", "high")
| row_7_8 s : (7 <= s <= 8)%Z -> table_row s ("suspicious", "mid")
| row_9 : table_row 9 ("suspicious", "high")
| row_10 : table_row 10 ("offense", "high")
| row_0 : table_row 0 ("normal", "high").



(** ** Sample data *)

Definition lawsuit (number : string) : pyval :=
  PDict [ entry "Number" (PS number); entry "CourtName" (PS "TJSP");
          entry "MainSubject" (PS "Estelionato"); entry "Type" (PS "Criminal") ].

(** A response with four lawsuits and two sanctions, one matched at 100
    and one at 80. *)
Definition sample_sanction_100 : pyval :=
  PDict [ entry "Type" (PS "Arrest Warrant"); entry "Source" (PS "CNJ");
          entry "MatchRate" (PNum 100);
          entry "Details" (PDict [entry "WarrantDescription" (PS "Mandado")]) ].

Definition sample_sanction_80 : pyval :=
  PDict [ entry "Type" (PS "Arrest Warrant"); entry "Source" (PS "CNJ");
          entry "MatchRate" (PNum 80);
          entry "Details" (PDict [entry "OriginalName" (PS "Fulano")]) ].

Definition sample_response : pyval :=
  PDict [ entry "Result"
    (PList [ PDict [
      entry "BasicData" (PDict [ entry "TaxIdNumber" (PS "12345678901");
                                 entry "Name" (PS "Fulano de Tal") ]);
      entry "Processes" (PDict [ entry "Lawsuits"
        (PList [lawsuit "1"; lawsuit "2"; lawsuit "3"; lawsuit "4"]) ]);
      entry "KycData" (PDict [
        entry "PEPHistory" (PList []);
        entry "SanctionsHistory" (PList [sample_sanction_100; sample_sanction_80]);
        entry "IsCurrentlyPEP" (PBool false);
        entry "IsCurrentlySanctioned" (PBool false) ]) ] ]) ].

(** The sample response with a third sanction, matched at 80, whose
    [Details] is null. *)
Definition sample_sanction_null_details : pyval :=
  PDict [ entry "Type" (PS "Arrest Warrant"); entry "MatchRate" (PNum 80);
          entry "Details" PNone ].

Definition sample_response_null_details : pyval :=
  PDict [ entry "Result"
    (PList [ PDict [
      entry "KycData" (PDict [
        entry "SanctionsHistory"
          (PList [sample_sanction_100; sample_sanction_null_details]) ]) ] ]) ].

(** What [extract_processes_and_sanctions] returns, when it returns. *)
Definition returned (r : result analysis) : analysis :=
  match r with
  | Ok a => a
  | Raise _ => initial_analysis
  end.

Definition sample_analysis : analysis :=
  returned (extract_processes_and_sanctions sample_response).

(** ** Order of the selected records *)

(** Descending by amount. *)
Definition desc {A} (x y : Q * A) : Prop := (fst y <= fst x)%Q.

(** The records of one amount, in the order in which they stand. *)
Definition with_amount {A} (q : Q) (l : list (Q * A)) : list (Q * A) :=
  filter (fun x => Qeq_bool (fst x) q) l.

(** ** Lookups that bring no data *)

(** The exchange failed with a [RequestException], or its body is empty,
    or it is an object without a usable ["Result"]. *)
Definition no_data (o : http_outcome) : bool :=
  match o with
  | RequestFailed => true
  | Crashed => false
  | Body v =>
      negb (truthy v) ||
      match v with
      | PDict d =>
          match lookup (U "Result") d with
          | Some r => negb (truthy r)
          | None => true
          end
      | _ => false
      end
  end.

(** ** The summary against the two lists *)

Definition tally (f : analysis -> bool) (l : list profile) : nat :=
  length (filter (fun p => f (found p)) l).

Definition coherent (ca : counterparty_analysis) : Prop :=
  let s := totals ca in
  let i := top_cash_in_analysis ca in
  let o := top_cash_out_analysis ca in
  total_counterparties_analyzed s = (length i + length o)%nat /\
  counterparties_with_processes s = (tally has_processes i + tally has_processes o)%nat /\
  counterparties_with_sanctions s = (tally has_sanctions i + tally has_sanctions o)%nat /\
  high_risk_counterparties s =
    (tally (fun a => is_high_risk (risk_level a)) i +
     tally (fun a => is_high_risk (risk_level a)) o)%nat.

(** ** Sample transactions and lookups *)

Definition transaction (document : string) (amount : Q) : pyval :=
  PDict [ entry "party" (PS "Fulano"); entry "party_document_number" (PS document);
          entry "pix_amount" (PNum amount) ].

(** A record whose amount is null. *)
Definition null_amount_transaction : pyval :=
  PDict [ entry "party_document_number" (PS "123.456.789-01");
          entry "pix_amount" PNone ].

(** No string is read as a number, and other values print as nothing. *)
Definition no_float (s : pystr) : option Q := None.
Definition no_text (v : pyval) : pystr := [].

(** The service answers every lookup with the sample response. *)
Definition post_sample (d : direction) (i : nat) (document : pystr) : http_outcome :=
  Body sample_response.

(** The service is down for every lookup. *)
Definition post_down (d : direction) (i : nat) (document : pystr) : http_outcome :=
  RequestFailed.

(** The service answers with an object of another shape. *)
Definition post_malformed (d : direction) (i : nat) (document : pystr) : http_outcome :=
  Body (PDict [ entry "Result" (PS "Service Unavailable") ]).

(** What [analyze_counterparties] returns, when it returns. *)
Definition analyzed (r : result counterparty_analysis) : counterparty_analysis :=
  match r with
  | Ok ca => ca
  | Raise _ => empty_analysis true
  end.

(** ** Sources of the report fields *)

Import Report.

(** The query brought no row, or failed. *)
Definition no_rows (o : query_outcome) : Prop := rows (execute_query o) = [].

Definition zero_totals (r : report) : Prop :=
  total_cash_in_pix r = PNum 0 /\
  total_cash_out_pix r = PNum 0 /\
  total_cash_in_pix_atypical_hours r = PNum 0 /\
  total_cash_out_pix_atypical_hours r = PNum 0.

(** Each list of a report with the query that it comes from. *)
Definition shared_lists (issuing : query) : list (query * (report -> list pyval)) :=
  [ (issuing, issuing_concentration);
    (PixConcentration, pix_cash_in);
    (PixConcentration, pix_cash_out);
    (OffenseAnalysis, offense_history);
    (Phonecast, contacts);
    (UserDevice, devices);
    (Lawsuits, lawsuit_data);
    (BusinessRelationships, business_data);
    (PrisonTransactions, prison_transactions);
    (SanctionsHistory, sanctions_history);
    (RiskPixTransfers, denied_pix_transactions);
    (BetsPixTransfers, bets_pix_transfers) ].

Definition merchant_lists : list (query * (merchant_dossier -> list pyval)) :=
  (map (fun qf => (fst qf, fun m => snd qf (shared m))) (shared_lists IssuingPayments)
   ++ [ (CardholderConcentration, transaction_concentration);
        (OnlineStore, products_online);
        (RiskTransactions, denied_transactions) ])%list.

Definition cardholder_lists : list (query * (report -> list pyval)) :=
  shared_lists IssuingConcentration.

(** A warehouse in which only the merchant profile and the devices have
    rows; the PIX query returns its columns and no row. *)
Definition sample_warehouse (q : query) (uid : Z) : query_outcome :=
  match q with
  | MerchantReport =>
      QueryRows {| columns := [U "user_id"; U "name"];
                   rows := [[PNum 7; PS "Loja"]] |}
  | UserDevice =>
      QueryRows {| columns := [U "device_id"]; rows := [[PS "a1"]; [PS "b2"]] |}
  | PixConcentration =>
      QueryRows {| columns := [U "transaction_type"; U "pix_amount"]; rows := [] |}
  | _ => QueryError
  end.

Definition same_cell (v : pyval) : pyval := v.
Definition no_sum (l : list pyval) : pyval := PNum 0.

End Terms.

(* ------------------------------------------------------------------ *)
(** * Further terms of the properties *)
(* ------------------------------------------------------------------ *)

Module MoreTerms.
Import Bdc Counterparty Report Payload Gpt App Terms.
Local Open Scope py_scope.
Local Open Scope string_scope.

(** The error indicators without "context_length_exceeded". *)
Definition live_indicators : list pystr :=
  [ U "Não consigo tankar este caso";
    U "An error occurred";
    U "muitas transações";
    U "token limit";
    U "chame um analista humano" ].

(** The notes that [format_export_payload] can append. *)
Definition notes : list pystr := [ []; medium_note; medium_high_note ].

(** Dots and dashes taken out, as [format_cpf] does first. *)
Definition bare (s : pystr) : pystr :=
  Helpers.remove_char 45 (Helpers.remove_char 46 s).

Definition dotted (c : pystr) : pystr :=
  (firstn 3 c ++ [46%N] ++ firstn 3 (skipn 3 c) ++ [46%N] ++
   firstn 3 (skipn 6 c) ++ [45%N] ++ firstn 2 (skipn 9 c))%list.

(** No recognized document field of the record holds a true value. *)
Definition no_document (transaction : pyval) : bool :=
  match transaction with
  | PDict d =>
      forallb (fun field => match lookup (U field) d with
                            | Some v => negb (truthy v)
                            | None => true
                            end) possible_fields
  | _ => false
  end.

(** The [Lawsuits] of the person of a response. *)
Definition lawsuits_of (bdc_result : pyval) : result pyval :=
  person <- person_of bdc_result ;;
  match person with
  | None => Ok (PList [])
  | Some person_data =>
      processes_data <- py_get person_data "Processes" (PDict []) ;;
      get_if processes_data "Lawsuits" (PList [])
  end.

(** The [KycData] of the person of a response. *)
Definition kyc_of (bdc_result : pyval) : result pyval :=
  person <- person_of bdc_result ;;
  match person with
  | None => Ok (PDict [])
  | Some person_data => py_get person_data "KycData" (PDict [])
  end.

(** A profile whose level is the one that its own signals give. *)
Definition level_follows_signals (p : profile) : Prop :=
  let a := found p in
  risk_level a = risk_of (has_sanctions a) (has_processes a) (length (processes a)) /\
  (length (processes a) <= 10)%nat.

(** The outcomes of [run_bot] for which a payload was sent, and those
    among them whose conclusion is "suspicious". *)
Definition is_sent (o : result payload) : bool :=
  match o with Ok _ => true | Raise _ => false end.

Definition is_suspicious (o : result payload) : bool :=
  match o with
  | Ok p => (conclusion p =? "suspicious")%string
  | Raise _ => false
  end.




(** The rows of a frame whose cell in column [n] is the string [s]. *)
Definition rows_of_type (n : nat) (s : string) (df : dataframe) : list (list pyval) :=
  filter (fun r => match nth n r PNone with
                   | PStr t => pystr_eqb t (U s)
                   | _ => false
                   end) (rows df).

(** A PIX concentration with a row of each type and one of another. *)
Definition sample_pix_warehouse (q : query) (uid : Z) : query_outcome :=
  match q with
  | PixConcentration =>
      QueryRows {| columns := [ U "transaction_type"; U "pix_amount";
                                U "pix_amount_atypical_hours";
                                U "party_document_number" ];
                   rows := [ [PS "Cash In"; PNum 10; PNum 0; PS "111"];
                             [PS "Cash Out"; PNum 7; PNum 0; PS "222"];
                             [PS "Cash In"; PNum 30; PNum 5; PS "333"];
                             [PS "Refund"; PNum 1; PNum 0; PS "444"] ] |}
  | _ => QueryError
  end.

(** The profiles of each list have its direction and a level that
    follows from their signals. *)
Definition sound_lists (ca : counterparty_analysis) : Prop :=
  Forall (fun p => transaction_type p = CASH_IN /\ level_follows_signals p)
         (top_cash_in_analysis ca) /\
  Forall (fun p => transaction_type p = CASH_OUT /\ level_follows_signals p)
         (top_cash_out_analysis ca).

(** A person who is a PEP today, with no history of any kind. *)
Definition sample_current_pep : pyval :=
  PDict [ entry "Result"
    (PList [ PDict [ entry "KycData" (PDict [ entry "IsCurrentlyPEP" (PBool true) ]) ] ]) ].

(** Twelve lawsuits. *)
Definition sample_twelve_lawsuits : pyval :=
  PDict [ entry "Result"
    (PList [ PDict [ entry "Processes" (PDict [ entry "Lawsuits"
      (PList (map lawsuit ["1"; "2"; "3"; "4"; "5"; "6"; "7"; "8"; "9"; "10";
                           "11"; "12"])) ]) ] ]) ].

(** A record of the PIX concentration without a document. *)
Definition anonymous_transaction (amount : Q) : pyval :=
  PDict [ entry "party" (PS "Desconhecido"); entry "party_document_number" PNone;
          entry "cpf" (PS ""); entry "pix_amount" (PNum amount) ].

(** A completion service that fails on every call. *)
Definition client_down (model prompt : pystr) : completion :=
  Failed (U "Connection error.").

(** A completion service that answers every call with a score of 9,
    under the heading of the second pattern. *)
Definition client_score_9 (model prompt : pystr) : completion :=
  Completed (U "Perfil compatível. Score: 9/10 ").

(** A prompt that only names the user. *)
Definition sample_prompt (uid : Z) (r : merchant_dossier + report)
           (alert : pystr) (features : option pystr) : result pystr :=
  Ok (U "Por favor, analise o caso abaixo.").

Definition sample_user : user :=
  {| flagged_id := 7; alert_type := U "AI Alert"; features := None;
     business_validation := Some false |}.

End MoreTerms.

(* ================================================================== *)
(** * Properties *)
(* ================================================================== *)

Unset Implicit Arguments.

(** ** Text *)

Module TextFacts.

Lemma pystr_eqb_eq a b : pystr_eqb a b = true <-> a = b.
Proof.
  unfold pystr_eqb. destruct (list_eq_dec N.eq_dec a b); split; congruence.
Qed.

Lemma pystr_eqb_refl a : pystr_eqb a a = true.
Proof. now apply pystr_eqb_eq. Qed.

Lemma prefix_app p s t : prefix p s = true -> prefix p (s ++ t) = true.
Proof.
  revert s; induction p as [|a p IH]; intros [|b s]; simpl; try easy.
  intros H; apply andb_true_iff in H as [Hab Hp].
  now rewrite Hab, (IH _ Hp).
Qed.

Lemma contains_app p s t : contains p s = true -> contains p (s ++ t) = true.
Proof.
  induction s as [|b s IH].
  - simpl. rewrite orb_false_r. intros H.
    destruct p; [now destruct t | discriminate].
  - cbn [contains app]. intros H. apply orb_true_iff in H as [H|H].
    + apply (prefix_app _ _ t) in H. cbn [app] in H. now rewrite H.
    + rewrite (IH H). apply orb_true_r.
Qed.

Lemma In_firstn {A} n (l : list A) x : In x (firstn n l) -> In x l.
Proof.
  intros H. rewrite <- (firstn_skipn n l). apply in_or_app. now left.
Qed.

Lemma lower_app s t : lower (s ++ t) = lower s ++ lower t.
Proof. apply flat_map_app. Qed.

(** Every character of a phrase found in a text is in the text. *)
Lemma prefix_In p s c : prefix p s = true -> In c p -> In c s.
Proof.
  revert s; induction p as [|a p IH]; intros [|b s]; simpl; try easy.
  intros H [->|Hc]; apply andb_true_iff in H as [Hab Hp].
  - apply N.eqb_eq in Hab. now left.
  - right. now apply IH.
Qed.

Lemma contains_In p s c : contains p s = true -> In c p -> In c s.
Proof.
  induction s as [|b s IH]; cbn [contains]; intros H Hc.
  - rewrite orb_false_r in H. destruct p; [easy | discriminate].
  - apply orb_true_iff in H as [H|H].
    + now apply (prefix_In p).
    + right. now apply IH.
Qed.

End TextFacts.

(** ** The export payload *)

Module PayloadFacts.
Import Payload TextFacts Terms.
Local Open Scope string_scope.
Local Open Scope Z_scope.

Lemma append_once_extends marker note s :
  exists t, append_once marker note s = (s ++ t)%list.
Proof.
  unfold append_once. destruct (contains marker s).
  - exists []. now rewrite app_nil_r.
  - now exists note.
Qed.

Lemma classify_extends score clean :
  exists t, snd (classify score clean) = (clean ++ t)%list.
Proof.
  unfold classify.
  destruct (score <=? 5); [exists []; now rewrite app_nil_r|].
  destruct (score <=? 6); [apply append_once_extends|].
  destruct (score <=? 8); [apply append_once_extends|].
  destruct (score <=? 9); exists []; now rewrite app_nil_r.
Qed.

(** The pair of the table depends on the score alone. *)
Lemma mapped_score score clean :
  mapped score clean =
  if score <=? 6 then ("normal", "high")
  else if score <=? 8 then ("suspicious", "mid")
  else if score <=? 9 then ("suspicious", "high")
  else ("offense", "high").
Proof.
  unfold mapped, classify.
  destruct (Z.leb_spec score 5), (Z.leb_spec score 6); try reflexivity; try lia.
  destruct (score <=? 8); [reflexivity|].
  now destruct (score <=? 9).
Qed.

(** The payload of a description without an error marker. *)
Lemma payload_without_error uid raw bv :
  has_error (sanitize raw) = false ->
  let clean := sanitize raw in
  let score := extract_risk_score clean in
  let p := format_export_payload uid raw bv in
  risk_score (format_export_locals raw) = Some score /\
  description p = snd (classify score clean) /\
  conclusion p = override (fst (mapped score clean)) (description p) /\
  priority p = snd (mapped score clean).
Proof.
  intros H clean score p. subst p clean score.
  unfold format_export_payload, format_export_locals, mapped. rewrite H.
  destruct (classify _ _) as [[c q] d]. simpl. auto.
Qed.

(** Whatever the description, a score above 10 maps to the last row. *)
Lemma above_ten_is_offense score clean :
  10 < score -> mapped score clean = ("offense", "high").
Proof.
  intros H. rewrite mapped_score.
  destruct (Z.leb_spec score 6); [lia|].
  destruct (Z.leb_spec score 8); [lia|].
  destruct (Z.leb_spec score 9); [lia|reflexivity].
Qed.

(** Sanitizing removes every underscore, and lower-casing brings none
    back, so the marker "context_length_exceeded" is never found. *)
Lemma no_underscore_after_sanitize raw :
  ~ In 95%N (lower (sanitize raw)).
Proof.
  unfold lower, sanitize. rewrite in_flat_map. intros [c [Hc H95]].
  apply filter_In in Hc as [_ Hm]. unfold markdown_marker in Hm.
  unfold lower_char in H95.
  repeat match type of H95 with
         | In _ (if ?b then _ else _) => destruct b eqn:?
         end; simpl in H95;
    repeat match goal with
           | H : _ \/ _ |- _ => destruct H
           | H : False |- _ => destruct H
           | H : N.eqb _ _ = true |- _ => apply N.eqb_eq in H
           | H : andb _ _ = true |- _ => apply andb_true_iff in H as [? ?]
           | H : N.leb _ _ = true |- _ => apply N.leb_le in H
           end; subst; try lia; discriminate.
Qed.

Lemma context_length_marker_unreachable raw :
  contains (lower (U "context_length_exceeded")) (lower (sanitize raw)) = false.
Proof.
  destruct (contains _ _) eqn:H; [|reflexivity].
  exfalso. apply (no_underscore_after_sanitize raw).
  apply (contains_In _ _ 95%N H). vm_compute. tauto.
Qed.

(** A description in which neither pattern is found has the score 0. *)
Lemma unparseable_is_zero clean :
  Re.search risk_score_pattern clean = None ->
  Re.search alt_pattern clean = None ->
  extract_risk_score clean = 0.
Proof. unfold extract_risk_score. now intros -> ->. Qed.

(** C1. For a description without an error marker, the table decides:
    an extracted score of 1 to 5 gives normal/high, 6 gives normal/high,
    7 or 8 gives suspicious/mid, 9 gives suspicious/high, 10 gives
    offense/high, and a score that cannot be parsed counts as 0 and gives
    normal/high.  For every score from 0 to 10 the pair that
    [format_export_payload] maps it to is a row of the table, the table
    has no other pair for it, and that pair is what the payload carries
    (its conclusion before the override). *)
Theorem score_mapping_total uid raw bv s :
  has_error (sanitize raw) = false ->
  extract_risk_score (sanitize raw) = s ->
  0 <= s <= 10 ->
  let clean := sanitize raw in
  let p := format_export_payload uid raw bv in
  table_row s (mapped s clean) /\
  (forall pair, table_row s pair -> pair = mapped s clean) /\
  (Re.search risk_score_pattern clean = None ->
   Re.search alt_pattern clean = None ->
   s = 0 /\ mapped s clean = ("normal", "high")) /\
  risk_score (format_export_locals raw) = Some s /\
  priority p = snd (mapped s clean) /\
  conclusion p = override (fst (mapped s clean)) (description p).
Proof.
  intros Herr Hs Hrange clean p. subst clean p.
  pose proof (payload_without_error uid raw bv Herr) as H.
  cbv zeta in H. rewrite Hs in H. destruct H as (Hr & _ & Hc & Hp).
  assert (Hcases : s = 0 \/ 1 <= s <= 5 \/ s = 6 \/ 7 <= s <= 8 \/ s = 9 \/ s = 10) by lia.
  repeat match goal with |- _ /\ _ => split end; try assumption.
  - rewrite mapped_score.
    destruct Hcases as [->|[H|[->|[H|[->| ->]]]]];
      try (simpl; first [exact row_0 | exact row_6 | exact row_9 | exact row_10]).
    + destruct (Z.leb_spec s 6); [now apply row_1_5 | lia].
    + destruct (Z.leb_spec s 6); [lia|].
      destruct (Z.leb_spec s 8); [now apply row_7_8 | lia].
  - intros pair Hrow. rewrite mapped_score. clear Hs Hr Hc Hp.
    inversion Hrow; subst; try reflexivity.
    + destruct (Z.leb_spec s 6); [reflexivity | lia].
    + destruct (Z.leb_spec s 6); [lia|].
      destruct (Z.leb_spec s 8); [reflexivity | lia].
  - intros H1 H2. rewrite (unparseable_is_zero _ H1 H2) in Hs. subst s.
    split; reflexivity.
Qed.

Lemma score_mapping_total_witness :
  let d := U "Risco de Lavagem de Dinheiro: 7/10" in
  table_row 7 (mapped 7 (sanitize d)) /\
  priority (format_export_payload 42 d true) = "mid".
Proof.
  intros d.
  assert (Herr : has_error (sanitize d) = false) by reflexivity.
  assert (Hs : extract_risk_score (sanitize d) = 7) by reflexivity.
  assert (Hr : 0 <= 7 <= 10) by lia.
  destruct (score_mapping_total 42 d true 7 Herr Hs Hr) as (H1 & _ & _ & _ & H2 & _).
  split; [exact H1 | exact H2].
Defined.

(** C4. If the sanitized description contains one of the error markers,
    compared without regard to case, the conclusion is the empty string
    and the priority is "high"; the description is the sanitized text as it
    is, and no risk score is extracted: the variable is never bound. *)
Theorem error_marker_blocks_mapping uid raw bv indicator :
  In indicator error_indicators ->
  contains (lower indicator) (lower (sanitize raw)) = true ->
  let p := format_export_payload uid raw bv in
  conclusion p = "" /\
  priority p = "high" /\
  description p = sanitize raw /\
  risk_score (format_export_locals raw) = None.
Proof.
  intros Hin Hc p. subst p.
  assert (Herr : has_error (sanitize raw) = true).
  { unfold has_error. apply existsb_exists. now exists indicator. }
  unfold format_export_payload, format_export_locals. rewrite Herr. simpl. auto.
Qed.

Lemma error_marker_blocks_mapping_witness :
  let d := U "São muitas transações. Risco de Lavagem de Dinheiro: 10/10" in
  conclusion (format_export_payload 42 d false) = "" /\
  priority (format_export_payload 42 d false) = "high" /\
  risk_score (format_export_locals d) = None.
Proof.
  intros d.
  assert (Hin : In (U "muitas transações") error_indicators)
    by (vm_compute; tauto).
  assert (Hc : contains (lower (U "muitas transações")) (lower (sanitize d)) = true)
    by reflexivity.
  destruct (error_marker_blocks_mapping 42 d false _ Hin Hc) as (H1 & H2 & _ & H3).
  repeat split; assumption.
Defined.

(** C6. On the branch that maps a score, if the sanitized text contains
    "normalizar o caso", compared without regard to case, and the mapped
    conclusion is not "offense", the conclusion of the payload is
    "normal", whatever the score. *)
Theorem normalizar_forces_normal uid raw bv :
  has_error (sanitize raw) = false ->
  contains (U "normalizar o caso") (lower (sanitize raw)) = true ->
  fst (mapped (extract_risk_score (sanitize raw)) (sanitize raw)) <> "offense" ->
  conclusion (format_export_payload uid raw bv) = "normal".
Proof.
  intros Herr Hphrase Hmapped.
  destruct (payload_without_error uid raw bv Herr) as (_ & Hd & Hc & _).
  rewrite Hc, Hd. unfold override.
  destruct (classify_extends (extract_risk_score (sanitize raw)) (sanitize raw))
    as [t ->].
  rewrite lower_app, (contains_app _ _ _ Hphrase).
  destruct (String.eqb_spec (fst (mapped (extract_risk_score (sanitize raw))
                                         (sanitize raw))) "offense") as [E|E].
  - contradiction.
  - reflexivity.
Qed.

Lemma normalizar_forces_normal_witness :
  let d := U "Risco de Lavagem de Dinheiro: 9/10. Sugiro NORMALIZAR o caso." in
  extract_risk_score (sanitize d) = 9 /\
  conclusion (format_export_payload 42 d false) = "normal".
Proof.
  intros d. split; [reflexivity|].
  apply (normalizar_forces_normal 42 d false).
  - reflexivity.
  - reflexivity.
  - vm_compute. discriminate.
Defined.

(** C10. There is a description without an error marker whose score
    pattern matches a number above 10, "Risco de Lavagem de Dinheiro:
    12/10", and its payload has conclusion "offense" and priority
    "high": the score is neither refused nor read as 0. *)
Theorem score_above_ten_is_offense :
  exists raw,
    raw = U "Risco de Lavagem de Dinheiro: 12/10" /\
    has_error (sanitize raw) = false /\
    risk_score (format_export_locals raw) = Some 12 /\
    conclusion (format_export_payload 42 raw false) = "offense" /\
    priority (format_export_payload 42 raw false) = "high".
Proof.
  eexists. split; [reflexivity|]. vm_compute. repeat split; reflexivity.
Qed.

End PayloadFacts.

(** ** The error monad *)

Module PyFacts.
Local Open Scope py_scope.

Lemma bind_Ok {A B} (m : result A) (f : A -> result B) b :
  bind m f = Ok b -> exists a, m = Ok a /\ f a = Ok b.
Proof. destruct m as [a|e]; simpl; [now exists a | discriminate]. Qed.

(** Split a hypothesis [x <- m ;; k = Ok b] into its two steps. *)
Ltac bind_inv H :=
  let a := fresh "v" in
  let H1 := fresh "E" in
  apply bind_Ok in H; destruct H as (a & H1 & H).

Lemma mapM_length {A B} (f : A -> result B) l r :
  mapM f l = Ok r -> length r = length l.
Proof.
  revert r; induction l as [|x l IH]; simpl; intros r H.
  - now inversion H.
  - bind_inv H. bind_inv H. inversion H; subst. simpl. f_equal. now apply IH.
Qed.

Lemma mapM_In {A B} (f : A -> result B) l r y :
  mapM f l = Ok r -> In y r -> exists x, In x l /\ f x = Ok y.
Proof.
  revert r; induction l as [|x l IH]; simpl; intros r H Hy.
  - inversion H; subst. destruct Hy.
  - bind_inv H. bind_inv H. inversion H; subst. destruct Hy as [<-|Hy].
    + exists x; auto.
    + destruct (IH _ E0 Hy) as (x' & Hx' & Hf). exists x'; auto.
Qed.

Lemma mapM_each {A B} (f : A -> result B) l r x :
  mapM f l = Ok r -> In x l -> exists y, f x = Ok y /\ In y r.
Proof.
  revert r; induction l as [|x' l IH]; simpl; intros r H Hx; [destruct Hx|].
  bind_inv H. bind_inv H. inversion H; subst. destruct Hx as [<-|Hx].
  - exists v; simpl; auto.
  - destruct (IH _ E0 Hx) as (y & Hy & Hin). exists y; simpl; auto.
Qed.

Lemma mapM_total {A B} (f : A -> result B) l :
  (forall x, In x l -> exists y, f x = Ok y) -> exists r, mapM f l = Ok r.
Proof.
  induction l as [|x l IH]; simpl; intros H; [now exists []|].
  destruct (H x (or_introl eq_refl)) as [y Hy].
  destruct IH as [r Hr]; [intros; apply H; now right|].
  exists (y :: r). now rewrite Hy, Hr.
Qed.

Lemma py_get_dict v k default x :
  py_get v k default = Ok x -> exists d, v = PDict d.
Proof. destruct v; simpl; try discriminate. intros _. now eexists. Qed.

End PyFacts.

(** ** Extraction of processes and sanctions *)

Module ExtractionFacts.
Import Bdc Counterparty TextFacts PyFacts Terms.
Local Open Scope py_scope.
Local Open Scope string_scope.





(** What an analysis that was returned is made of. *)
Lemma extract_spec bdc_result a :
  extract_processes_and_sanctions bdc_result = Ok a ->
  (person_of bdc_result = Ok None /\ a = initial_analysis) \/
  exists person_data lawsuits kyc_data,
    person_of bdc_result = Ok (Some person_data) /\
    (exists processes_data,
        py_get person_data "Processes" (PDict []) = Ok processes_data /\
        get_if processes_data "Lawsuits" (PList []) = Ok lawsuits) /\
    (if truthy lawsuits
     then exists l, lawsuits = PList l /\ l <> [] /\
                    mapM process_info (firstn 10 l) = Ok (processes a)
     else processes a = []) /\
    py_get person_data "KycData" (PDict []) = Ok kyc_data /\
    collect_sanctions kyc_data = Ok (sanctions a) /\
    has_processes a = truthy lawsuits /\
    has_sanctions a = (match sanctions a with [] => false | _ => true end) /\
    risk_level a = risk_of (has_sanctions a) (has_processes a) (length (processes a)).
Proof.
  unfold extract_processes_and_sanctions. intros H.
  apply bind_Ok in H as (person & Hperson & H).
  destruct person as [person_data|]; [right | left; now inversion H].
  apply bind_Ok in H as (ks & _ & H).
  apply bind_Ok in H as (basic & _ & H).
  apply bind_Ok in H as ([doc nm] & _ & H).
  apply bind_Ok in H as (processes_data & Hpd & H).
  apply bind_Ok in H as (lawsuits & Hlaw & H).
  apply bind_Ok in H as (n & Hlen & H).
  apply bind_Ok in H as (infos & Hinfos & H).
  apply bind_Ok in H as (kyc_data & Hkyc & H).
  apply bind_Ok in H as (collected & Hcol & H).
  inversion H; subst; clear H. simpl.
  exists person_data, lawsuits, kyc_data.
  repeat split; try assumption; try reflexivity.
  - now exists processes_data.
  - destruct (truthy lawsuits) eqn:T; [|now inversion Hinfos].
    apply bind_Ok in Hinfos as (to_add & Hslice & Hinfos).
    apply bind_Ok in Hinfos as (items & Hiter & Hinfos).
    destruct lawsuits as [| | |s|l|d]; simpl in *; try discriminate.
    + inversion Hslice; subst; clear Hslice.
      simpl in Hiter. inversion Hiter; subst; clear Hiter.
      destruct s as [|c s]; [discriminate|]. simpl in Hinfos. discriminate.
    + inversion Hslice; subst; clear Hslice.
      simpl in Hiter. inversion Hiter; subst; clear Hiter.
      exists l. repeat split; [|assumption]. now destruct l.
Qed.

Lemma extract_processes_length bdc_result a :
  extract_processes_and_sanctions bdc_result = Ok a ->
  (length (processes a) <= 10)%nat /\
  has_processes a = (match processes a with [] => false | _ => true end).
Proof.
  intros H. destruct (extract_spec _ _ H) as [[_ ->]|(pd & lw & kyc & _ & _ & Hl & _ & _ & Hp & _)].
  - simpl. split; [lia|reflexivity].
  - rewrite Hp. destruct (truthy lw).
    + destruct Hl as (l & -> & Hne & Hm).
      pose proof (mapM_length _ _ _ Hm) as Hlen.
      rewrite length_firstn in Hlen. split; [lia|].
      destruct (processes a); [|reflexivity].
      destruct l; [contradiction|]. simpl in Hlen. discriminate.
    + rewrite Hl. simpl. split; [lia|reflexivity].
Qed.




Lemma sample_extracted :
  extract_processes_and_sanctions sample_response = Ok sample_analysis.
Proof. vm_compute. reflexivity. Qed.


(** C3. In every analysis that is returned the risk level follows a
    strict order of tests: sanctions present, ALTO; no sanction and more
    than three processes, MEDIO; no sanction and one to three processes,
    BAIXO-MEDIO; neither, BAIXO.  With both processes and sanctions the
    level is ALTO, not MEDIO and not BAIXO-MEDIO. *)
Theorem risk_level_precedence bdc_result a :
  extract_processes_and_sanctions bdc_result = Ok a ->
  (sanctions a <> [] -> risk_level a = ALTO) /\
  (sanctions a = [] -> (3 < length (processes a))%nat -> risk_level a = MEDIO) /\
  (sanctions a = [] -> (1 <= length (processes a) <= 3)%nat ->
   risk_level a = BAIXO_MEDIO) /\
  (sanctions a = [] -> processes a = [] -> risk_level a = BAIXO) /\
  (sanctions a <> [] -> processes a <> [] ->
   risk_level a = ALTO /\ risk_level a <> MEDIO /\ risk_level a <> BAIXO_MEDIO).
Proof.
  intros H.
  destruct (extract_processes_length _ _ H) as [_ Hp].
  assert (Hs : has_sanctions a = match sanctions a with [] => false | _ => true end
               /\ risk_level a = risk_of (has_sanctions a) (has_processes a)
                                         (length (processes a))).
  { destruct (extract_spec _ _ H)
      as [[_ ->]|(pd & lw & kyc & _ & _ & _ & _ & _ & _ & Hs & Hr)]; auto. }
  destruct Hs as [Hs Hr]. rewrite Hr, Hs, Hp. unfold risk_of.
  repeat split.
  - intros Hne. destruct (sanctions a); [contradiction|reflexivity].
  - intros -> Hlen. destruct (processes a); simpl in *; [lia|].
    destruct (Nat.ltb_spec 3 (Datatypes.S (length l))); [reflexivity|lia].
  - intros -> Hlen. destruct (processes a); simpl in *; [lia|].
    destruct (Nat.ltb_spec 3 (Datatypes.S (length l))); [lia|reflexivity].
  - intros -> ->. reflexivity.
  - destruct (sanctions a); [contradiction|reflexivity].
  - destruct (sanctions a); [contradiction|discriminate].
  - destruct (sanctions a); [contradiction|discriminate].
Qed.

Lemma risk_level_precedence_witness :
  processes sample_analysis <> [] /\
  sanctions sample_analysis <> [] /\
  risk_level sample_analysis = ALTO.
Proof.
  assert (Hs : sanctions sample_analysis <> []) by (vm_compute; discriminate).
  assert (Hp : processes sample_analysis <> []) by (vm_compute; discriminate).
  destruct (risk_level_precedence sample_response sample_analysis sample_extracted)
    as (_ & _ & _ & _ & H).
  destruct (H Hs Hp) as [Halto _]. repeat split; assumption.
Defined.

(** The log line of a rejected sanction reads [Details] without the guard
    that the accepted branch has: with a null [Details] the extraction
    raises, and no analysis is returned for the response. *)
Remark rejected_null_details_raises :
  extract_processes_and_sanctions sample_response_null_details
  = Raise AttributeError.
Proof. reflexivity. Qed.

End ExtractionFacts.

(** ** The stable descending sort *)

Module SortFacts.
Import Counterparty Terms.

Section Sort.
Variable A : Type.
Implicit Types (x y : Q * A) (l : list (Q * A)).

Lemma insert_desc_perm x l : Permutation (insert_desc x l) (x :: l).
Proof.
  induction l as [|y l IH]; simpl; [reflexivity|].
  destruct (Qle_bool (fst y) (fst x)); [reflexivity|].
  rewrite IH. apply perm_swap.
Qed.

Lemma sorted_desc_perm l : Permutation (sorted_desc l) l.
Proof.
  induction l as [|x l IH]; simpl; [reflexivity|].
  rewrite insert_desc_perm. now apply perm_skip.
Qed.

Lemma insert_desc_sorted x l :
  StronglySorted desc l -> StronglySorted desc (insert_desc x l).
Proof.
  induction 1 as [|y l Hl IH Hy]; simpl.
  - repeat constructor.
  - destruct (Qle_bool (fst y) (fst x)) eqn:E.
    + apply Qle_bool_iff in E. constructor.
      * now constructor.
      * constructor; [exact E|].
        eapply Forall_impl; [|exact Hy]. unfold desc. intros z Hz.
        now apply Qle_trans with (fst y).
    + constructor; [exact IH|].
      rewrite (insert_desc_perm x l).
      constructor; [|exact Hy]. unfold desc.
      apply Qlt_le_weak, Qnot_le_lt. intros Hle.
      apply Qle_bool_iff in Hle. congruence.
Qed.

Lemma sorted_desc_sorted l : StronglySorted desc (sorted_desc l).
Proof.
  induction l as [|x l IH]; simpl; [constructor|].
  now apply insert_desc_sorted.
Qed.

Lemma insert_desc_stable q x l :
  with_amount q (insert_desc x l) = with_amount q (x :: l).
Proof.
  unfold with_amount.
  induction l as [|y l IH]; simpl; [reflexivity|].
  destruct (Qle_bool (fst y) (fst x)) eqn:E; [reflexivity|].
  simpl. rewrite IH. simpl.
  destruct (Qeq_bool (fst x) q) eqn:Ex; [|reflexivity].
  destruct (Qeq_bool (fst y) q) eqn:Ey; [|reflexivity].
  exfalso. apply Qeq_bool_iff in Ex, Ey.
  assert (Hle : Qle_bool (fst y) (fst x) = true).
  { apply Qle_bool_iff. rewrite Ex, Ey. apply Qle_refl. }
  congruence.
Qed.

(** Stability: records of equal amount keep their original order. *)
Lemma sorted_desc_stable q l : with_amount q (sorted_desc l) = with_amount q l.
Proof.
  induction l as [|x l IH]; simpl; [reflexivity|].
  rewrite insert_desc_stable. unfold with_amount in *. simpl. now rewrite IH.
Qed.
End Sort.

End SortFacts.

(** ** The analysis of counterparties *)

Module AnalysisFacts.
Import Bdc Counterparty TextFacts PyFacts Terms SortFacts ExtractionFacts.
Local Open Scope py_scope.
Local Open Scope string_scope.

Section Facts.
Variable post : direction -> nat -> pystr -> http_outcome.
Variable float_of_str : pystr -> option Q.
Variable str_of_value : pyval -> pystr.

#[local] Abbreviation top3 := (top3 float_of_str).
#[local] Abbreviation amount_key := (amount_key float_of_str).
#[local] Abbreviation with_key := (with_key float_of_str).
#[local] Abbreviation visit := (visit post str_of_value).
#[local] Abbreviation visit_all := (visit_all post str_of_value).
#[local] Abbreviation extract_document := (extract_document_from_transaction str_of_value).

(** *** Selection *)

(** A record without the key counts for 0. *)
Lemma amount_key_missing d :
  lookup (U "pix_amount") d = None -> amount_key (PDict d) = Ok 0%Q.
Proof. unfold Counterparty.amount_key. simpl. now intros ->. Qed.

Lemma with_key_spec x kx :
  with_key x = Ok kx -> amount_key x = Ok (fst kx) /\ snd kx = x.
Proof.
  unfold Counterparty.with_key. intros H.
  apply bind_Ok in H as (k & Hk & H). inversion H; subst. auto.
Qed.

Lemma keyed_records l keyed :
  mapM with_key l = Ok keyed -> map snd keyed = l.
Proof.
  revert keyed; induction l as [|x l IH]; simpl; intros keyed H.
  - now inversion H.
  - apply bind_Ok in H as (kx & Hkx & H).
    apply bind_Ok in H as (rest & Hrest & H). inversion H; subst. simpl.
    apply with_key_spec in Hkx as [_ ->]. f_equal. now apply IH.
Qed.

Lemma top3_spec l sel :
  top3 l = Ok sel ->
  exists keyed,
    mapM with_key l = Ok keyed /\
    sel = firstn 3 (map snd (sorted_desc keyed)).
Proof.
  unfold Counterparty.top3. intros H.
  apply bind_Ok in H as (keyed & Hk & H). inversion H; subst.
  now exists keyed.
Qed.

Lemma top3_length l sel : top3 l = Ok sel -> (length sel <= 3)%nat.
Proof.
  intros H. apply top3_spec in H as (keyed & _ & ->).
  rewrite length_firstn. lia.
Qed.

Lemma top3_subset l sel x : top3 l = Ok sel -> In x sel -> In x l.
Proof.
  intros H Hx. apply top3_spec in H as (keyed & Hk & ->).
  apply keyed_records in Hk. rewrite <- Hk.
  apply In_firstn in Hx.
  apply (Permutation_in x (Permutation_map snd (sorted_desc_perm _ keyed)) Hx).
Qed.

Lemma top3_dicts l sel x : top3 l = Ok sel -> In x sel -> exists d, x = PDict d.
Proof.
  intros H Hx. pose proof (top3_subset _ _ _ H Hx) as Hl.
  apply top3_spec in H as (keyed & Hk & _).
  destruct (mapM_each _ _ _ _ Hk Hl) as (kx & Hkx & _).
  apply with_key_spec in Hkx as [Hkx _].
  unfold Counterparty.amount_key in Hkx.
  apply bind_Ok in Hkx as (v & Hv & _). now apply py_get_dict in Hv.
Qed.

(** At most three records are selected; they are the first three of the
    records sorted by amount, the largest first, records of one amount
    in their original order; a record without amount counts for 0; and
    the empty list selects nothing. *)
Lemma selection_of_top_three l sel :
  top3 l = Ok sel ->
  (length sel <= 3)%nat /\
  exists keyed,
    map snd keyed = l /\
    (forall kx, In kx keyed -> amount_key (snd kx) = Ok (fst kx)) /\
    sel = firstn 3 (map snd (sorted_desc keyed)) /\
    Permutation (sorted_desc keyed) keyed /\
    StronglySorted desc (sorted_desc keyed) /\
    (forall q, with_amount q (sorted_desc keyed) = with_amount q keyed).
Proof.
  intros H. split; [now apply top3_length in H|].
  apply top3_spec in H as (keyed & Hk & ->). exists keyed.
  repeat split.
  - now apply keyed_records in Hk.
  - intros kx Hkx. destruct (mapM_In _ _ _ _ Hk Hkx) as (x & _ & Hx).
    apply with_key_spec in Hx as [Hx Hs]. now rewrite Hs.
  - apply sorted_desc_perm.
  - apply sorted_desc_sorted.
  - intros q. apply sorted_desc_stable.
Qed.

Lemma top3_nil : top3 [] = Ok [].
Proof. reflexivity. Qed.

(** *** One counterparty *)

Lemma first_document_dict fields tx doc :
  first_document str_of_value fields tx = Ok (Some doc) -> exists d, tx = PDict d.
Proof.
  induction fields as [|f fields IH]; simpl; [discriminate|].
  intros H. apply bind_Ok in H as (present & Hp & H).
  destruct tx as [| | |s|l|d]; simpl in Hp; try discriminate; [| |now eexists];
    (destruct present; [discriminate | now apply IH]).
Qed.

Lemma first_document_total fields d :
  exists r, first_document str_of_value fields (PDict d) = Ok r.
Proof.
  induction fields as [|f fields [r IH]]; simpl; [now eexists|].
  destruct (lookup (U f) d) as [v|] eqn:E; simpl; [|now exists r].
  destruct (truthy v); [now eexists | now exists r].
Qed.

(** A turn of the loop leaves the analysis as it was or records one
    profile of its direction. *)
Lemma visit_step d i tx ca ca' :
  visit d i tx ca = Ok ca' ->
  ca' = ca \/ exists p, transaction_type p = d /\ ca' = record_profile p ca.
Proof.
  unfold Counterparty.visit. intros H.
  apply bind_Ok in H as (document & Hd & H).
  destruct document as [[|c doc]|]; try (inversion H; now left).
  destruct (lookup_profile post d i tx (c :: doc)) as [p|e] eqn:E;
    inversion H; subst; [right | now left].
  exists p. split; [|reflexivity].
  unfold lookup_profile in E.
  repeat (let x := fresh in let Hx := fresh in
          apply bind_Ok in E as (x & Hx & E)).
  now inversion E.
Qed.

(** It does not raise on a record that is a dict. *)
Lemma visit_total d i dd ca : exists ca', visit d i (PDict dd) ca = Ok ca'.
Proof.
  unfold Counterparty.visit, Counterparty.extract_document_from_transaction.
  destruct (first_document_total possible_fields dd) as [r ->]. simpl.
  destruct r as [[|c doc]|]; try now eexists.
  destruct (lookup_profile _ _ _ _ _); now eexists.
Qed.

Lemma visit_all_total d top : forall i ca,
  (forall x, In x top -> exists dd, x = PDict dd) ->
  exists ca', visit_all d i top ca = Ok ca'.
Proof.
  induction top as [|tx top IH]; simpl; intros i ca Hd; [now eexists|].
  destruct (Hd tx (or_introl eq_refl)) as [dd ->].
  destruct (visit_total d i dd ca) as [ca1 ->]. simpl.
  apply IH. intros; apply Hd; now right.
Qed.

(** *** The summary *)

Lemma tally_snoc f l p :
  tally f (l ++ [p]) = (tally f l + (if f (found p) then 1 else 0))%nat.
Proof.
  unfold tally. rewrite filter_app, length_app. simpl.
  now destruct (f (found p)).
Qed.

Lemma record_profile_coherent p ca : coherent ca -> coherent (record_profile p ca).
Proof.
  unfold coherent, record_profile, incr. simpl.
  intros (Ht & Hp & Hs & Hh).
  destruct (transaction_type p); rewrite ?tally_snoc, ?length_app; simpl;
    rewrite Ht, Hp, Hs, Hh;
    destruct (has_processes (found p)), (has_sanctions (found p)),
             (is_high_risk (risk_level (found p))); repeat split; lia.
Qed.

Lemma visit_all_coherent d top : forall i ca ca',
  visit_all d i top ca = Ok ca' -> coherent ca -> coherent ca'.
Proof.
  induction top as [|tx top IH]; simpl; intros i ca ca' H Hc.
  - now inversion H; subst.
  - apply bind_Ok in H as (ca1 & H1 & H).
    apply (IH _ _ _ H). apply visit_step in H1 as [->|(p & _ & ->)]; auto.
    now apply record_profile_coherent.
Qed.

(** A loop grows the list of its direction by at most one profile for
    each record and leaves the other list alone. *)
Lemma visit_all_lengths d top : forall i ca ca',
  visit_all d i top ca = Ok ca' ->
  match d with
  | CASH_IN =>
      (length (top_cash_in_analysis ca') <=
         length (top_cash_in_analysis ca) + length top)%nat /\
      top_cash_out_analysis ca' = top_cash_out_analysis ca
  | CASH_OUT =>
      (length (top_cash_out_analysis ca') <=
         length (top_cash_out_analysis ca) + length top)%nat /\
      top_cash_in_analysis ca' = top_cash_in_analysis ca
  end.
Proof.
  induction top as [|tx top IH]; simpl; intros i ca ca' H.
  - inversion H; subst. destruct d; split; (lia || reflexivity).
  - apply bind_Ok in H as (ca1 & H1 & H). apply IH in H.
    apply visit_step in H1 as [->|(p & Hp & ->)].
    + destruct d; destruct H; split; (lia || assumption).
    + unfold record_profile in H. rewrite Hp in H. simpl in H.
      destruct d; destruct H as [H ->]; rewrite length_app in H; simpl in H;
        split; (lia || reflexivity).
Qed.

Lemma empty_analysis_coherent b : coherent (empty_analysis b).
Proof. unfold coherent. simpl. auto. Qed.

Lemma tally_le f l : (tally f l <= length l)%nat.
Proof. unfold tally. apply filter_length_le. Qed.

(** *** Lookups without data *)

Lemma extract_no_result_key d :
  truthy (PDict d) = true ->
  match lookup (U "Result") d with
  | Some r => truthy r = false
  | None => True
  end ->
  extract_processes_and_sanctions (PDict d) = Ok initial_analysis.
Proof.
  intros T H. unfold extract_processes_and_sanctions, person_of.
  rewrite T. cbn [negb py_in py_get bind].
  destruct (lookup (U "Result") d) as [r|]; cbn [negb bind].
  - rewrite H. reflexivity.
  - reflexivity.
Qed.

Lemma analyze_document_no_data (f : pystr -> http_outcome) doc :
  no_data (f (sanitize_document doc)) = true ->
  exists r, analyze_document f doc = Ok r /\
            extract_processes_and_sanctions r = Ok initial_analysis.
Proof.
  unfold analyze_document, fetch_bdc_data, no_data.
  destruct (f (sanitize_document doc)) as [| |v]; [|discriminate|].
  - intros _. exists no_result. split; reflexivity.
  - cbn [bind]. destruct (truthy v) eqn:T; cbn [negb orb].
    + destruct v as [| | | | |d]; try discriminate.
      cbn [py_get bind]. intros H. exists (PDict d).
      destruct (lookup (U "Result") d) as [r|] eqn:E.
      * apply negb_true_iff in H. rewrite H. cbn [bind]. split; [reflexivity|].
        apply extract_no_result_key; [exact T | now rewrite E].
      * cbn [truthy bind]. split; [reflexivity|].
        apply extract_no_result_key; [exact T | now rewrite E].
    + intros _. exists no_result. split; reflexivity.
Qed.

(** C9. Every analysis that [analyze_counterparties] returns has at
    most three profiles in each list; the total analyzed is the number
    of profiles of both lists, so at most six; and the counts of
    counterparties with processes, with sanctions and of high risk are
    each at most the total. *)
Theorem analysis_invariants b cash_in_list cash_out_list uid ca :
  analyze_counterparties b post float_of_str str_of_value
                         cash_in_list cash_out_list uid = Ok ca ->
  let s := totals ca in
  (length (top_cash_in_analysis ca) <= 3)%nat /\
  (length (top_cash_out_analysis ca) <= 3)%nat /\
  total_counterparties_analyzed s =
    (length (top_cash_in_analysis ca) + length (top_cash_out_analysis ca))%nat /\
  (total_counterparties_analyzed s <= 6)%nat /\
  (counterparties_with_processes s <= total_counterparties_analyzed s)%nat /\
  (counterparties_with_sanctions s <= total_counterparties_analyzed s)%nat /\
  (high_risk_counterparties s <= total_counterparties_analyzed s)%nat.
Proof.
  intros H s. subst s. unfold analyze_counterparties in H.
  assert (Hc : coherent ca /\
               (length (top_cash_in_analysis ca) <= 3)%nat /\
               (length (top_cash_out_analysis ca) <= 3)%nat).
  { destruct b; simpl in H.
    - apply bind_Ok in H as (s1 & Hs1 & H).
      apply bind_Ok in H as (ca1 & Hca1 & H).
      apply bind_Ok in H as (s2 & Hs2 & H).
      pose proof (top3_length _ _ Hs1) as L1.
      pose proof (top3_length _ _ Hs2) as L2.
      pose proof (visit_all_lengths _ _ _ _ _ Hca1) as [Li Lo].
      pose proof (visit_all_lengths _ _ _ _ _ H) as [Lo' Li'].
      simpl in Li, Lo. split; [|split].
      + apply (visit_all_coherent _ _ _ _ _ H).
        apply (visit_all_coherent _ _ _ _ _ Hca1).
        apply empty_analysis_coherent.
      + rewrite Li'. lia.
      + rewrite Lo in Lo'. simpl in Lo'. lia.
    - inversion H; subst. split; [apply empty_analysis_coherent|simpl; lia]. }
  destruct Hc as ((Ht & Hp & Hs & Hh) & Li & Lo).
  pose proof (tally_le has_processes (top_cash_in_analysis ca)).
  pose proof (tally_le has_processes (top_cash_out_analysis ca)).
  pose proof (tally_le has_sanctions (top_cash_in_analysis ca)).
  pose proof (tally_le has_sanctions (top_cash_out_analysis ca)).
  pose proof (tally_le (fun a => is_high_risk (risk_level a)) (top_cash_in_analysis ca)).
  pose proof (tally_le (fun a => is_high_risk (risk_level a)) (top_cash_out_analysis ca)).
  repeat split; lia.
Qed.

(** C5, at the failing input.  A cash-in record whose [pix_amount] is
    null makes [analyze_counterparties] raise a [TypeError] from the
    sort key: the null is not taken for 0. *)
Theorem null_amount_raises uid :
  analyze_counterparties true post float_of_str str_of_value
                         [null_amount_transaction] [] uid = Raise TypeError.
Proof. reflexivity. Qed.

(** The empty input returns the empty analysis. *)
Lemma analyze_nothing b uid :
  analyze_counterparties b post float_of_str str_of_value [] [] uid
  = Ok (empty_analysis b).
Proof. now destruct b. Qed.

(** C7, as the code has it.  For a selected counterparty whose document
    was found: when the lookup brings no data (the request failed and
    [fetch_bdc_data] returned [None], the body is empty, or it has no
    usable ["Result"]), the counterparty is recorded with no process, no
    sanction and the level BAIXO, and only the total of the summary
    grows; when the lookup or the extraction raises, the counterparty
    is skipped and the analysis is left as it was; and whatever the
    lookups do, the analysis returns once both selections are made. *)
Theorem lookup_failure_contained :
  (forall d i tx doc ca,
      extract_document tx = Ok (Some doc) -> doc <> [] ->
      no_data (post d i (sanitize_document doc)) = true ->
      exists p,
        visit d i tx ca = Ok (record_profile p ca) /\
        found p = initial_analysis /\ transaction_type p = d /\
        totals (record_profile p ca) =
          {| total_counterparties_analyzed :=
               Datatypes.S (total_counterparties_analyzed (totals ca));
             counterparties_with_processes :=
               counterparties_with_processes (totals ca);
             counterparties_with_sanctions :=
               counterparties_with_sanctions (totals ca);
             high_risk_counterparties :=
               high_risk_counterparties (totals ca) |}) /\
  (forall d i tx doc ca e,
      extract_document tx = Ok (Some doc) ->
      lookup_profile post d i tx doc = Raise e ->
      visit d i tx ca = Ok ca) /\
  (forall b cash_in_list cash_out_list uid s1 s2,
      top3 cash_in_list = Ok s1 -> top3 cash_out_list = Ok s2 ->
      exists ca, analyze_counterparties b post float_of_str str_of_value
                                        cash_in_list cash_out_list uid = Ok ca).
Proof.
  split; [|split].
  - intros d i tx doc ca Hdoc Hne Hno.
    destruct (first_document_dict _ _ _ Hdoc) as [dd ->].
    destruct (analyze_document_no_data (post d i) doc Hno) as (r & Hr & He).
    unfold Counterparty.visit. rewrite Hdoc. simpl.
    destruct doc as [|c doc]; [contradiction|].
    unfold lookup_profile. rewrite Hr. simpl. rewrite He. simpl.
    eexists. split; [reflexivity|]. simpl. repeat split.
  - intros d i tx doc ca e Hdoc Hraise.
    unfold Counterparty.visit. rewrite Hdoc. simpl.
    destruct doc as [|c doc]; [reflexivity|]. now rewrite Hraise.
  - intros b cash_in_list cash_out_list uid s1 s2 H1 H2.
    unfold analyze_counterparties. destruct b; simpl; [|now eexists].
    rewrite H1. simpl.
    destruct (visit_all_total CASH_IN s1 0%nat (empty_analysis true)
                (fun x Hx => top3_dicts _ _ x H1 Hx)) as [ca1 ->]. simpl.
    rewrite H2. simpl.
    apply visit_all_total. intros x Hx. apply (top3_dicts _ _ x H2 Hx).
Qed.

End Facts.

Lemma analysis_invariants_witness :
  let ca := analyzed (analyze_counterparties true post_sample no_float no_text
                        [ transaction "111" 10; transaction "222" 30;
                          transaction "333" 20; transaction "444" 5 ]
                        [ transaction "555" 7 ] 1) in
  length (top_cash_in_analysis ca) = 3%nat /\
  total_counterparties_analyzed (totals ca) = 4%nat /\
  (high_risk_counterparties (totals ca) <= total_counterparties_analyzed (totals ca))%nat.
Proof.
  intros ca.
  assert (H : analyze_counterparties true post_sample no_float no_text
                [ transaction "111" 10; transaction "222" 30;
                  transaction "333" 20; transaction "444" 5 ]
                [ transaction "555" 7 ] 1 = Ok ca)
    by (vm_compute; reflexivity).
  destruct (analysis_invariants post_sample no_float no_text true _ _ 1%Z ca H)
    as (_ & _ & _ & _ & _ & _ & Hh).
  split; [reflexivity|]. split; [reflexivity|]. exact Hh.
Defined.

(** C7 as stated fails: the document of the counterparty is found and the
    record is selected, the service answers with an object of another
    shape, and the counterparty is not counted. *)
Lemma malformed_response_not_counted :
  let tx := transaction "123.456.789-01" 10 in
  extract_document_from_transaction no_text tx = Ok (Some (U "123.456.789-01")) /\
  top3 no_float [tx] = Ok [tx] /\
  lookup_profile post_malformed CASH_IN 0 tx (U "123.456.789-01")
    = Raise AttributeError /\
  analyze_counterparties true post_malformed no_float no_text [tx] [] 1
    = Ok (empty_analysis true).
Proof. vm_compute. repeat split; reflexivity. Qed.

Lemma lookup_failure_contained_witness :
  let tx := transaction "123.456.789-01" 10 in
  (exists p, visit post_down no_text CASH_IN 0 tx (empty_analysis true)
             = Ok (record_profile p (empty_analysis true)) /\
             found p = initial_analysis) /\
  visit post_malformed no_text CASH_IN 0 tx (empty_analysis true)
    = Ok (empty_analysis true) /\
  (exists ca, analyze_counterparties true post_malformed no_float no_text
                                     [tx] [tx] 1 = Ok ca).
Proof.
  intros tx.
  assert (Hdoc : extract_document_from_transaction no_text tx
                 = Ok (Some (U "123.456.789-01"))) by reflexivity.
  assert (Hne : U "123.456.789-01" <> []) by (vm_compute; discriminate).
  assert (Hsel : top3 no_float [tx] = Ok [tx]) by reflexivity.
  split; [|split].
  - destruct (lookup_failure_contained post_down no_float no_text) as (Ha & _ & _).
    destruct (Ha CASH_IN 0%nat tx _ (empty_analysis true) Hdoc Hne eq_refl)
      as (p & Hv & Hf & _).
    exists p. split; assumption.
  - destruct (lookup_failure_contained post_malformed no_float no_text) as (_ & Hb & _).
    apply (Hb CASH_IN 0%nat tx (U "123.456.789-01") (empty_analysis true)
              AttributeError Hdoc).
    reflexivity.
  - destruct (lookup_failure_contained post_malformed no_float no_text) as (_ & _ & Hc).
    apply (Hc true [tx] [tx] 1%Z [tx] [tx] Hsel Hsel).
Defined.

End AnalysisFacts.

(** ** The report builders *)

Module ReportFacts.
Import Bdc Counterparty Report PyFacts Terms AnalysisFacts.
Local Open Scope py_scope.
Local Open Scope string_scope.

Lemma no_rows_empty df : rows df = [] -> df_empty df = true.
Proof. unfold df_empty. intros ->. now destruct (columns df). Qed.

Lemma records_no_rows df : rows df = [] -> records_or_empty df = [].
Proof. intros H. unfold records_or_empty. now rewrite (no_rows_empty _ H). Qed.

(** The records of a frame are dicts, so their conversion returns. *)
Lemma convert_records df :
  exists l, convert_decimals (records_or_empty df) = Ok l.
Proof.
  unfold convert_decimals. apply mapM_total. intros x Hx.
  unfold records_or_empty in Hx. destruct (df_empty df); [destruct Hx|].
  unfold to_dict_records in Hx. apply in_map_iff in Hx as (r & <- & _).
  now eexists.
Qed.

Lemma convert_no_rows df l :
  rows df = [] -> convert_decimals (records_or_empty df) = Ok l -> l = [].
Proof.
  intros H. rewrite (records_no_rows _ H). simpl. now inversion 1.
Qed.

Section Facts.
Variable BDC_AVAILABLE : bool.
Variable post : direction -> nat -> pystr -> http_outcome.
Variable float_of_str : pystr -> option Q.
Variable str_of_value : pyval -> pystr.
Variable round2 : pyval -> pyval.
Variable series_sum : list pyval -> pyval.
Variable warehouse : query -> Z -> query_outcome.

#[local] Abbreviation run := (run warehouse).
#[local] Abbreviation converted := (converted warehouse).
#[local] Abbreviation build :=
  (build BDC_AVAILABLE post float_of_str str_of_value round2 series_sum warehouse).
#[local] Abbreviation merchant_report :=
  (merchant_report BDC_AVAILABLE post float_of_str str_of_value round2 series_sum
                   warehouse).
#[local] Abbreviation cardholder_report :=
  (cardholder_report BDC_AVAILABLE post float_of_str str_of_value round2 series_sum
                     warehouse).
#[local] Abbreviation pix_totals := (pix_totals round2 series_sum).

Lemma converted_total q uid : exists l, converted q uid = Ok l.
Proof. apply convert_records. Qed.

Lemma converted_no_rows q uid l :
  no_rows (warehouse q uid) -> converted q uid = Ok l -> l = [].
Proof. apply convert_no_rows. Qed.

(** The PIX block of a frame without rows. *)
Lemma pix_totals_no_rows df pix :
  rows df = [] -> pix_totals df = Ok pix ->
  cash_in pix = empty_frame /\ cash_out pix = empty_frame /\
  sum_in pix = PNum 0 /\ sum_out pix = PNum 0 /\
  sum_in_atypical pix = PNum 0 /\ sum_out_atypical pix = PNum 0.
Proof.
  intros H. unfold Report.pix_totals. rewrite (no_rows_empty _ H). simpl.
  inversion 1; subst. simpl. repeat split.
Qed.

(** What a report that was returned is made of. *)
Lemma build_spec pq iq uid r :
  build pq iq uid = Ok r ->
  exists pix,
    pix_totals (run PixConcentration uid) = Ok pix /\
    subject_info r = first_record_or_empty (run pq uid) /\
    total_cash_in_pix r = sum_in pix /\
    total_cash_out_pix r = sum_out pix /\
    total_cash_in_pix_atypical_hours r = sum_in_atypical pix /\
    total_cash_out_pix_atypical_hours r = sum_out_atypical pix /\
    converted iq uid = Ok (issuing_concentration r) /\
    convert_decimals (records_or_empty (cash_in pix)) = Ok (pix_cash_in r) /\
    convert_decimals (records_or_empty (cash_out pix)) = Ok (pix_cash_out r) /\
    converted OffenseAnalysis uid = Ok (offense_history r) /\
    converted Phonecast uid = Ok (contacts r) /\
    converted UserDevice uid = Ok (devices r) /\
    lawsuit_data r = records_or_empty (run Lawsuits uid) /\
    business_data r = records_or_empty (run BusinessRelationships uid) /\
    converted PrisonTransactions uid = Ok (prison_transactions r) /\
    converted SanctionsHistory uid = Ok (sanctions_history r) /\
    converted RiskPixTransfers uid = Ok (denied_pix_transactions r) /\
    converted BetsPixTransfers uid = Ok (bets_pix_transfers r) /\
    analyze_counterparties BDC_AVAILABLE post float_of_str str_of_value
      (pix_cash_in r) (pix_cash_out r) uid = Ok (counterparty_analysis_of r).
Proof.
  unfold Report.build. intros H.
  apply bind_Ok in H as (pix & Hpix & H).
  apply bind_Ok in H as (issuing & Hissuing & H).
  apply bind_Ok in H as (ci & Hci & H).
  apply bind_Ok in H as (co & Hco & H).
  apply bind_Ok in H as (offense & Hoffense & H).
  apply bind_Ok in H as (cts & Hcts & H).
  apply bind_Ok in H as (dev & Hdev & H).
  apply bind_Ok in H as (prison & Hprison & H).
  apply bind_Ok in H as (sanc & Hsanc & H).
  apply bind_Ok in H as (dpix & Hdpix & H).
  apply bind_Ok in H as (bets & Hbets & H).
  apply bind_Ok in H as (ca & Hca & H).
  inversion H; subst; clear H. simpl. exists pix.
  repeat split; assumption.
Qed.

(** The lists of a report that was returned are empty where their
    query brought no row. *)
Lemma build_lists pq iq uid r :
  build pq iq uid = Ok r ->
  Forall (fun qf => no_rows (warehouse (fst qf) uid) -> snd qf r = [])
         (shared_lists iq).
Proof.
  intros H. apply build_spec in H
    as (pix & Hpix & _ & _ & _ & _ & _ & Hi & Hci & Hco & Ho & Hc & Hd & Hl & Hb
        & Hp & Hs & Hdp & Hbt & _).
  unfold shared_lists.
  repeat constructor; simpl; intros Hno;
    try (eapply converted_no_rows; eassumption);
    try (rewrite Hl || rewrite Hb; now apply records_no_rows).
  - destruct (pix_totals_no_rows _ _ Hno Hpix) as (Ein & _).
    rewrite Ein in Hci. now inversion Hci.
  - destruct (pix_totals_no_rows _ _ Hno Hpix) as (_ & Eout & _).
    rewrite Eout in Hco. now inversion Hco.
Qed.

(** A report is returned when the PIX query brought no row. *)
Lemma build_without_pix pq iq uid :
  no_rows (warehouse PixConcentration uid) ->
  exists r, build pq iq uid = Ok r /\
            zero_totals r /\ pix_cash_in r = [] /\ pix_cash_out r = [] /\
            counterparty_analysis_of r = empty_analysis BDC_AVAILABLE.
Proof.
  intros Hno. unfold Report.build, Report.pix_totals.
  unfold no_rows in Hno. fold (run PixConcentration uid) in Hno.
  rewrite (no_rows_empty _ Hno). simpl.
  destruct (converted_total iq uid) as [l1 ->].
  destruct (converted_total OffenseAnalysis uid) as [l2 ->].
  destruct (converted_total Phonecast uid) as [l3 ->].
  destruct (converted_total UserDevice uid) as [l4 ->].
  destruct (converted_total PrisonTransactions uid) as [l5 ->].
  destruct (converted_total SanctionsHistory uid) as [l6 ->].
  destruct (converted_total RiskPixTransfers uid) as [l7 ->].
  destruct (converted_total BetsPixTransfers uid) as [l8 ->]. simpl.
  rewrite analyze_nothing. simpl.
  eexists. split; [reflexivity|]. unfold zero_totals. simpl. repeat split.
Qed.

(** Whether a report is returned depends on the PIX query alone: with
    the same PIX rows, any other warehouse returns one too. *)
Lemma build_raises_from_pix_only other pq iq pq' iq' uid r :
  other PixConcentration uid = warehouse PixConcentration uid ->
  build pq iq uid = Ok r ->
  exists r',
    Report.build BDC_AVAILABLE post float_of_str str_of_value round2 series_sum
                 other pq' iq' uid = Ok r'.
Proof.
  intros Hsame H. apply build_spec in H
    as (pix & Hpix & _ & _ & _ & _ & _ & _ & Hci & Hco & _ & _ & _ & _ & _
        & _ & _ & _ & _ & Hca).
  unfold Report.build. unfold Report.run at 1. rewrite Hsame.
  fold (run PixConcentration uid). rewrite Hpix. cbn [bind].
  fold (Report.converted other iq' uid).
  destruct (convert_records (Report.run other iq' uid)) as [l1 E1].
  unfold Report.converted. rewrite E1, Hci, Hco. cbn [bind].
  destruct (convert_records (Report.run other OffenseAnalysis uid)) as [l2 ->].
  destruct (convert_records (Report.run other Phonecast uid)) as [l3 ->].
  destruct (convert_records (Report.run other UserDevice uid)) as [l4 ->].
  destruct (convert_records (Report.run other PrisonTransactions uid)) as [l5 ->].
  destruct (convert_records (Report.run other SanctionsHistory uid)) as [l6 ->].
  destruct (convert_records (Report.run other RiskPixTransfers uid)) as [l7 ->].
  destruct (convert_records (Report.run other BetsPixTransfers uid)) as [l8 ->].
  cbn [bind]. rewrite Hca. cbn [bind]. now eexists.
Qed.

(** C8. When the PIX concentration query brings no row, both builders
    return a report whose four PIX totals are 0.0 and whose two PIX
    lists are empty: nothing is raised.  In every report that is
    returned, the profile is the empty mapping when the profile query
    brought no row, and each list is empty when its query brought no
    row.  Nor does the absence of rows elsewhere make a builder raise:
    whether it returns depends on the rows of the PIX query alone. *)
Theorem report_defaults uid alert_type :
  (no_rows (warehouse PixConcentration uid) ->
   exists m c,
     merchant_report uid alert_type = Ok m /\
     cardholder_report uid alert_type = Ok c /\
     zero_totals (shared m) /\ zero_totals c /\
     pix_cash_in (shared m) = [] /\ pix_cash_out (shared m) = [] /\
     pix_cash_in c = [] /\ pix_cash_out c = []) /\
  (forall m,
      merchant_report uid alert_type = Ok m ->
      (no_rows (warehouse MerchantReport uid) -> subject_info (shared m) = []) /\
      Forall (fun qf => no_rows (warehouse (fst qf) uid) -> snd qf m = [])
             merchant_lists) /\
  (forall c,
      cardholder_report uid alert_type = Ok c ->
      (no_rows (warehouse CardholderReport uid) -> subject_info c = []) /\
      Forall (fun qf => no_rows (warehouse (fst qf) uid) -> snd qf c = [])
             cardholder_lists) /\
  (forall other,
      other PixConcentration uid = warehouse PixConcentration uid ->
      ((exists m, merchant_report uid alert_type = Ok m) ->
       exists m', Report.merchant_report BDC_AVAILABLE post float_of_str
                    str_of_value round2 series_sum other uid alert_type = Ok m') /\
      ((exists c, cardholder_report uid alert_type = Ok c) ->
       exists c', Report.cardholder_report BDC_AVAILABLE post float_of_str
                    str_of_value round2 series_sum other uid alert_type = Ok c')).
Proof.
  split; [|split; [|split]].
  - intros Hno.
    destruct (build_without_pix MerchantReport IssuingPayments uid Hno)
      as (rm & Hm & Zm & Im & Om & _).
    destruct (build_without_pix CardholderReport IssuingConcentration uid Hno)
      as (rc & Hc & Zc & Ic & Oc & _).
    unfold Report.merchant_report, Report.cardholder_report.
    destruct (converted_total CardholderConcentration uid) as [l1 H1].
    destruct (converted_total OnlineStore uid) as [l2 H2].
    rewrite H1, H2, Hm, Hc. simpl.
    eexists. eexists. split; [reflexivity|]. split; [reflexivity|].
    simpl. repeat match goal with |- _ /\ _ => split end; assumption.
  - intros m H. unfold Report.merchant_report in H.
    apply bind_Ok in H as (l1 & H1 & H).
    apply bind_Ok in H as (l2 & H2 & H).
    apply bind_Ok in H as (r & Hr & H).
    inversion H; subst; clear H. simpl. split.
    + intros Hno. apply build_spec in Hr as (pix & _ & -> & _).
      unfold first_record_or_empty, Report.run. now rewrite (no_rows_empty _ Hno).
    + unfold merchant_lists. apply Forall_app. split.
      * apply Forall_map. simpl. apply (build_lists _ _ _ _ Hr).
      * repeat constructor; simpl; intros Hno;
          try (eapply converted_no_rows; eassumption).
        now apply records_no_rows.
  - intros c H. unfold Report.cardholder_report in H. split.
    + intros Hno. apply build_spec in H as (pix & _ & -> & _).
      unfold first_record_or_empty, Report.run. now rewrite (no_rows_empty _ Hno).
    + apply (build_lists _ _ _ _ H).
  - intros other Hsame. split.
    + intros [m H]. unfold Report.merchant_report in H.
      apply bind_Ok in H as (l1 & _ & H).
      apply bind_Ok in H as (l2 & _ & H).
      apply bind_Ok in H as (r & Hr & _).
      destruct (build_raises_from_pix_only other _ _ MerchantReport
                  IssuingPayments _ _ Hsame Hr) as [r' Hr'].
      unfold Report.merchant_report, Report.converted.
      destruct (convert_records (Report.run other CardholderConcentration uid))
        as [k1 ->].
      destruct (convert_records (Report.run other OnlineStore uid)) as [k2 ->].
      cbn [bind]. rewrite Hr'. cbn [bind]. now eexists.
    + intros [c H]. unfold Report.cardholder_report in *.
      apply (build_raises_from_pix_only other _ _ CardholderReport
               IssuingConcentration _ _ Hsame H).
Qed.

End Facts.

Lemma report_defaults_witness :
  (exists m c,
      merchant_report true post_down no_float no_text same_cell no_sum
                      sample_warehouse 7 (U "AI Alert") = Ok m /\
      cardholder_report true post_down no_float no_text same_cell no_sum
                        sample_warehouse 7 (U "AI Alert") = Ok c /\
      zero_totals (shared m) /\ subject_info c = [] /\
      length (devices c) = 2%nat).
Proof.
  destruct (report_defaults true post_down no_float no_text same_cell no_sum
              sample_warehouse 7%Z (U "AI Alert")) as (Hpix & _ & Hcard & _).
  assert (Hno : no_rows (sample_warehouse PixConcentration 7%Z)) by reflexivity.
  destruct (Hpix Hno) as (m & c & Hm & Hc & Zm & _).
  exists m, c. split; [exact Hm|]. split; [exact Hc|]. split; [exact Zm|].
  destruct (Hcard c Hc) as [Hinfo _].
  split; [apply Hinfo; reflexivity|].
  vm_compute in Hc. inversion Hc. reflexivity.
Defined.

End ReportFacts.

(** ** More on the export payload *)

Module PayloadMore.
Import Payload TextFacts Terms MoreTerms PayloadFacts.
Local Open Scope string_scope.
Local Open Scope Z_scope.

Lemma contains_app_r (p s t : pystr) :
  contains p t = true -> contains p (s ++ t)%list = true.
Proof.
  intros H. induction s as [|c s IH]; [exact H|].
  cbn [app contains]. rewrite IH. apply orb_true_r.
Qed.

Lemma sanitize_app (a b : pystr) :
  sanitize (a ++ b)%list = (sanitize a ++ sanitize b)%list.
Proof. apply filter_app. Qed.

Lemma sanitize_unmarked s :
  forallb (fun c => negb (markdown_marker c)) s = true -> sanitize s = s.
Proof.
  unfold sanitize. induction s as [|c s IH]; simpl; [reflexivity|].
  intros H. apply andb_true_iff in H as [Hc Hs]. rewrite Hc. f_equal. auto.
Qed.

Lemma sanitize_In raw c : In c (sanitize raw) -> markdown_marker c = false.
Proof.
  unfold sanitize. intros H. apply filter_In in H as [_ H].
  now apply negb_true_iff in H.
Qed.

(** X1. Sanitizing leaves no [#], [*] or [_] in the text, and sanitizing
    a sanitized text changes nothing. *)
Theorem sanitize_idempotent raw :
  sanitize (sanitize raw) = sanitize raw /\
  ~ In 35%N (sanitize raw) /\ ~ In 42%N (sanitize raw) /\ ~ In 95%N (sanitize raw).
Proof.
  split.
  - apply sanitize_unmarked. apply forallb_forall. intros c Hc.
    now rewrite (sanitize_In _ _ Hc).
  - repeat split; intros H; apply sanitize_In in H; discriminate.
Qed.

(** The payload of a description with an error marker. *)
Lemma payload_with_error uid raw bv :
  has_error (sanitize raw) = true ->
  let p := format_export_payload uid raw bv in
  conclusion p = "" /\ priority p = "high" /\ description p = sanitize raw.
Proof.
  intros H. unfold format_export_payload, format_export_locals. rewrite H.
  simpl. auto.
Qed.

Lemma override_cases c clean : override c clean = c \/ override c clean = "normal".
Proof. unfold override. destruct (_ && _); auto. Qed.

Lemma override_offense clean : override "offense" clean = "offense".
Proof. unfold override. simpl. now rewrite andb_false_r. Qed.

(** X2. Every payload is well formed: the conclusion is "", "normal",
    "suspicious" or "offense", the priority "mid" or "high", the five
    constant fields have their values and the user id is the one given.
    The conclusion is "" exactly when an error marker was found, and the
    priority is "mid" only for a score of 7 or 8 without error marker. *)
Theorem payload_well_formed uid raw bv :
  let p := format_export_payload uid raw bv in
  (conclusion p = "" \/ conclusion p = "normal" \/
   conclusion p = "suspicious" \/ conclusion p = "offense") /\
  (priority p = "mid" \/ priority p = "high") /\
  user_id p = uid /\ analysis_type p = "manual" /\ automatic_pipeline p = true /\
  offense_group p = "illegal_activity" /\ offense_name p = "money_laundering" /\
  related_analyses p = [] /\
  (conclusion p = "" <-> has_error (sanitize raw) = true) /\
  (priority p = "mid" ->
   has_error (sanitize raw) = false /\
   7 <= extract_risk_score (sanitize raw) <= 8 /\ conclusion p <> "offense").
Proof.
  intros p. subst p.
  destruct (has_error (sanitize raw)) eqn:Herr.
  - destruct (payload_with_error uid raw bv Herr) as (Hc & Hp & _).
    rewrite Hc, Hp. repeat split; auto; try discriminate.
  - destruct (payload_without_error uid raw bv Herr) as (_ & _ & Hc & Hp).
    rewrite Hc, Hp, mapped_score.
    set (s := extract_risk_score (sanitize raw)).
    set (d := description (format_export_payload uid raw bv)).
    destruct (Z.leb_spec s 6); [|destruct (Z.leb_spec s 8); [|destruct (Z.leb_spec s 9)]];
      cbn [fst snd];
      try (destruct (override_cases "normal" d) as [-> | ->]);
      try (destruct (override_cases "suspicious" d) as [-> | ->]);
      try rewrite override_offense;
      repeat split; auto; try discriminate; try lia;
      try (intros; discriminate).
Qed.

Lemma payload_well_formed_witness :
  let p := format_export_payload 42 (U "Risco de Lavagem de Dinheiro: 7/10") false in
  priority p = "mid" /\ conclusion p <> "offense" /\ user_id p = 42.
Proof.
  intros p.
  destruct (payload_well_formed 42 (U "Risco de Lavagem de Dinheiro: 7/10") false)
    as (_ & _ & Hu & _ & _ & _ & _ & _ & _ & Hmid).
  assert (Hp : priority p = "mid") by reflexivity.
  split; [exact Hp|]. split; [exact (proj2 (proj2 (Hmid Hp))) | exact Hu].
Defined.

(** X3. The override does not reach the last tier: without error marker
    a score of 10 or more gives "offense" with priority "high", whatever
    the text says, and the description is the sanitized text. *)
Theorem offense_is_not_overridden uid raw bv :
  has_error (sanitize raw) = false ->
  10 <= extract_risk_score (sanitize raw) ->
  let p := format_export_payload uid raw bv in
  conclusion p = "offense" /\ priority p = "high" /\ description p = sanitize raw.
Proof.
  intros Herr Hs p. subst p.
  destruct (payload_without_error uid raw bv Herr) as (_ & Hd & Hc & Hp).
  rewrite Hc, Hp, Hd, mapped_score. unfold classify.
  destruct (Z.leb_spec (extract_risk_score (sanitize raw)) 5); [lia|].
  destruct (Z.leb_spec (extract_risk_score (sanitize raw)) 6); [lia|].
  destruct (Z.leb_spec (extract_risk_score (sanitize raw)) 8); [lia|].
  destruct (Z.leb_spec (extract_risk_score (sanitize raw)) 9); [lia|].
  cbn [fst snd]. rewrite override_offense. auto.
Qed.

Lemma offense_is_not_overridden_witness :
  let d := U "Risco de Lavagem de Dinheiro: 10/10. Sugiro normalizar o caso." in
  contains (U "normalizar o caso") (lower (sanitize d)) = true /\
  conclusion (format_export_payload 42 d false) = "offense".
Proof.
  intros d. split; [reflexivity|].
  apply (offense_is_not_overridden 42 d false); [reflexivity|].
  vm_compute. discriminate.
Defined.

Lemma notes_unmarked :
  forallb (forallb (fun c => negb (markdown_marker c))) notes = true.
Proof. vm_compute. reflexivity. Qed.

(** X4. The description of a payload is the sanitized text followed by
    at most one of the two notes, and it has no [#], [*] or [_]. *)
Theorem description_shape uid raw bv :
  let p := format_export_payload uid raw bv in
  (exists note, In note notes /\ description p = (sanitize raw ++ note)%list) /\
  (forall c, In c (description p) -> markdown_marker c = false).
Proof.
  intros p. subst p.
  assert (H : exists note, In note notes /\
            description (format_export_payload uid raw bv)
            = (sanitize raw ++ note)%list).
  { destruct (has_error (sanitize raw)) eqn:Herr.
    - destruct (payload_with_error uid raw bv Herr) as (_ & _ & ->).
      exists []. split; [now left | now rewrite app_nil_r].
    - destruct (payload_without_error uid raw bv Herr) as (_ & -> & _).
      unfold classify, append_once.
      destruct (_ <=? 5); [exists []; split; [now left | now rewrite app_nil_r]|].
      destruct (_ <=? 6).
      { cbn [snd]. destruct (contains _ _);
          [exists []; split; [now left | now rewrite app_nil_r]
          |exists medium_note; split; [right; now left | reflexivity]]. }
      destruct (_ <=? 8).
      { cbn [snd]. destruct (contains _ _);
          [exists []; split; [now left | now rewrite app_nil_r]
          |exists medium_high_note; split; [right; right; now left | reflexivity]]. }
      destruct (_ <=? 9); exists []; (split; [now left | now rewrite app_nil_r]). }
  split; [exact H|].
  destruct H as (note & Hn & ->). intros c Hc.
  apply in_app_or in Hc as [Hc|Hc]; [now apply sanitize_In in Hc|].
  pose proof notes_unmarked as Hu.
  rewrite forallb_forall in Hu. specialize (Hu _ Hn).
  rewrite forallb_forall in Hu. specialize (Hu _ Hc).
  now apply negb_true_iff in Hu.
Qed.

(** X5. A score of 6 always leaves "Caso de médio risco" in the
    description, and a score of 7 or 8 "Caso de risco médio-alto": the
    note is added when the text does not have the phrase already. *)
Theorem note_is_present uid raw bv :
  has_error (sanitize raw) = false ->
  let s := extract_risk_score (sanitize raw) in
  let p := format_export_payload uid raw bv in
  (s = 6 -> contains (U "Caso de médio risco") (description p) = true) /\
  (7 <= s <= 8 -> contains (U "Caso de risco médio-alto") (description p) = true).
Proof.
  intros Herr s p. subst s p.
  destruct (payload_without_error uid raw bv Herr) as (_ & -> & _).
  unfold classify, append_once. split; intros Hs.
  - rewrite Hs. cbn [Z.leb Z.compare Pos.compare Pos.compare_cont snd].
    destruct (contains (U "Caso de médio risco") (sanitize raw)) eqn:E; [exact E|].
    apply contains_app_r. reflexivity.
  - destruct (Z.leb_spec (extract_risk_score (sanitize raw)) 5); [lia|].
    destruct (Z.leb_spec (extract_risk_score (sanitize raw)) 6); [lia|].
    destruct (Z.leb_spec (extract_risk_score (sanitize raw)) 8); [|lia].
    cbn [snd].
    destruct (contains (U "Caso de risco médio-alto") (sanitize raw)) eqn:E; [exact E|].
    apply contains_app_r. reflexivity.
Qed.

Lemma note_is_present_witness :
  let d := U "## Risco de Lavagem de Dinheiro: 6/10" in
  contains (U "Caso de médio risco") (sanitize d) = false /\
  contains (U "Caso de médio risco")
           (description (format_export_payload 42 d false)) = true.
Proof.
  intros d. split; [reflexivity|].
  destruct (note_is_present 42 d false) as [H _]; [reflexivity|].
  apply H. reflexivity.
Defined.

(** X6. The indicator "context_length_exceeded" never fires, since the
    sanitized text has no underscore: whether a description counts as an
    error is decided by the five other indicators alone. *)
Theorem context_length_indicator_is_dead raw :
  has_error (sanitize raw) =
  existsb (fun indicator => contains (lower indicator) (lower (sanitize raw)))
          live_indicators.
Proof.
  unfold has_error, error_indicators, live_indicators. cbn [existsb].
  rewrite (context_length_marker_unreachable raw). reflexivity.
Qed.

End PayloadMore.

(** ** The completion service *)

Module GptFacts.
Import Payload Gpt TextFacts Terms MoreTerms PayloadFacts PayloadMore.
Local Open Scope string_scope.

(** An error marker found in a part of a text is found in the text. *)
Lemma has_error_inside (a x b : pystr) :
  has_error (sanitize x) = true ->
  has_error (sanitize (a ++ x ++ b)%list) = true.
Proof.
  unfold has_error. intros H. apply existsb_exists in H as (i & Hi & Hc).
  apply existsb_exists. exists i. split; [exact Hi|].
  rewrite !sanitize_app, !lower_app.
  apply contains_app_r. now apply contains_app.
Qed.

(** Both messages that [get_chatgpt_response] returns for an exception
    carry an error marker. *)
Lemma failure_message_has_error client prompt model msg :
  client model prompt = Failed msg ->
  has_error (sanitize (get_chatgpt_response client prompt model)) = true.
Proof.
  intros H. unfold get_chatgpt_response. rewrite H.
  destruct (contains _ (lower msg)); [vm_compute; reflexivity|].
  apply (has_error_inside [] (U "An error occurred: ") msg).
  vm_compute. reflexivity.
Qed.

(** X7. When the call to the completion service raises, whatever the
    exception, the text that [get_chatgpt_response] returns makes
    [format_export_payload] give the empty conclusion with priority
    "high": a failed analysis is never read as a score. *)
Theorem failed_completion_is_inconclusive client prompt model msg uid bv :
  client model prompt = Failed msg ->
  let p := format_export_payload uid (get_chatgpt_response client prompt model) bv in
  conclusion p = "" /\ priority p = "high" /\
  risk_score (format_export_locals (get_chatgpt_response client prompt model)) = None.
Proof.
  intros H p. subst p.
  pose proof (failure_message_has_error _ _ _ _ H) as Herr.
  destruct (payload_with_error uid _ bv Herr) as (Hc & Hp & _).
  repeat split; [exact Hc | exact Hp |].
  unfold format_export_locals. now rewrite Herr.
Qed.

Lemma failed_completion_is_inconclusive_witness :
  conclusion (format_export_payload 7 (get_gpt_analysis client_down (U "caso")) false)
  = "".
Proof.
  apply (failed_completion_is_inconclusive client_down (U "caso") gpt_4o
           (U "Connection error.") 7%Z false).
  reflexivity.
Defined.

(** X8. In [get_analysis_and_decision], if any of the calls that it makes
    raises (the analysis, the score when it is asked for, or the
    decision), the text returned carries an error marker, and its
    payload has the empty conclusion with priority "high". *)
Theorem failed_step_is_inconclusive client prompt uid bv :
  let first := get_chatgpt_response client prompt gpt_4o in
  ((exists msg, client gpt_4o prompt = Failed msg) \/
   (contains (U "Risco de Lavagem de Dinheiro:") first = false /\
    exists msg, client o3_mini (score_prompt first) = Failed msg) \/
   (exists msg, client o3_mini (decision_prompt (scored_analysis client prompt))
                = Failed msg)) ->
  let p := format_export_payload uid (get_analysis_and_decision client prompt) bv in
  conclusion p = "" /\ priority p = "high".
Proof.
  intros first H p. subst p.
  assert (Herr : has_error (sanitize (get_analysis_and_decision client prompt)) = true).
  { unfold get_analysis_and_decision.
    destruct H as [[msg H]|[[Hno [msg H]]|[msg H]]].
    - apply failure_message_has_error in H.
      unfold scored_analysis. cbv zeta.
      destruct (negb (contains _ _)).
      + rewrite <- !app_assoc. exact (has_error_inside [] _ _ H).
      + exact (has_error_inside [] _ _ H).
    - apply failure_message_has_error in H.
      unfold scored_analysis. cbv zeta. subst first. rewrite Hno. cbn [negb].
      pose proof (has_error_inside
                    (get_chatgpt_response client prompt gpt_4o ++ nl ++ nl)%list
                    _ (decision_heading ++
                       get_chatgpt_response client
                         (decision_prompt
                            (get_chatgpt_response client prompt gpt_4o ++ nl ++ nl ++
                             get_chatgpt_response client
                               (score_prompt (get_chatgpt_response client prompt gpt_4o))
                               o3_mini)%list) o3_mini)%list H) as H'.
      rewrite <- !app_assoc in H'. rewrite <- !app_assoc. exact H'.
    - apply failure_message_has_error in H.
      pose proof (has_error_inside
                    (scored_analysis client prompt ++ decision_heading)%list
                    _ [] H) as H'.
      rewrite app_nil_r, <- app_assoc in H'. exact H'. }
  destruct (payload_with_error uid _ bv Herr) as (Hc & Hp & _). auto.
Qed.

Lemma failed_step_is_inconclusive_witness :
  conclusion (format_export_payload 7 (get_analysis_and_decision client_down (U "caso"))
                                    false) = "".
Proof.
  apply (failed_step_is_inconclusive client_down (U "caso") 7%Z false).
  left. exists (U "Connection error."). reflexivity.
Defined.

End GptFacts.

(** ** Documents: format_cpf, sanitize_document, analyze_document *)

Module DocumentFacts.
Import Bdc Helpers TextFacts PyFacts MoreTerms.
Local Open Scope py_scope.

Lemma In_skipn_any {A} n (l : list A) x : In x (skipn n l) -> In x l.
Proof.
  intros H. rewrite <- (firstn_skipn n l). apply in_or_app. now right.
Qed.

Lemma filter_all {A} (f : A -> bool) l :
  (forall x, In x l -> f x = true) -> filter f l = l.
Proof.
  induction l as [|x l IH]; simpl; intros H; [reflexivity|].
  rewrite (H x (or_introl eq_refl)). f_equal. apply IH. intros; apply H; now right.
Qed.

Lemma filter_filter {A} (f g : A -> bool) l :
  (forall x, f x = true -> g x = true) -> filter f (filter g l) = filter f l.
Proof.
  intros H. induction l as [|x l IH]; simpl; [reflexivity|].
  destruct (g x) eqn:G; simpl; rewrite IH; [reflexivity|].
  destruct (f x) eqn:F; [|reflexivity]. rewrite (H _ F) in G. discriminate.
Qed.

Lemma bare_In s x : In x (bare s) -> x <> 46%N /\ x <> 45%N.
Proof.
  unfold bare, remove_char. intros H.
  apply filter_In in H as [H H45]. apply filter_In in H as [_ H46].
  apply negb_true_iff, N.eqb_neq in H45, H46. auto.
Qed.

Lemma bare_fixed c : (forall x, In x c -> x <> 46%N /\ x <> 45%N) -> bare c = c.
Proof.
  intros H. unfold bare, remove_char.
  rewrite (filter_all _ c); [apply filter_all|];
    intros x Hx; apply negb_true_iff, N.eqb_neq; now apply H.
Qed.

Lemma bare_bare s : bare (bare s) = bare s.
Proof. apply bare_fixed, bare_In. Qed.

Lemma bare_app a b : bare (a ++ b) = bare a ++ bare b.
Proof. unfold bare, remove_char. now rewrite !filter_app. Qed.

Lemma chunks (c : pystr) :
  length c = 11%nat ->
  firstn 3 c ++ firstn 3 (skipn 3 c) ++ firstn 3 (skipn 6 c) ++ firstn 2 (skipn 9 c) = c.
Proof.
  intros H. do 11 (destruct c as [|? c]; [discriminate|]).
  destruct c; [reflexivity|discriminate].
Qed.

Lemma bare_dotted c :
  length c = 11%nat -> (forall x, In x c -> x <> 46%N /\ x <> 45%N) ->
  bare (dotted c) = c.
Proof.
  intros Hlen H. unfold dotted. rewrite !bare_app.
  change (bare [46%N]) with (@nil N). change (bare [45%N]) with (@nil N).
  cbn [app].
  rewrite !bare_fixed; [now apply chunks| | | |];
    intros x Hx; apply H;
      repeat (apply In_firstn in Hx || apply In_skipn_any in Hx); exact Hx.
Qed.

Lemma format_cpf_spec s :
  format_cpf (Some s) =
  Some (if (length (bare s) =? 11)%nat then dotted (bare s) else bare s).
Proof. unfold format_cpf. fold (bare s). now destruct (_ =? _)%nat. Qed.

(** Without dots and dashes the result is the input without them. *)
Lemma format_cpf_bare s out :
  format_cpf (Some s) = Some out -> bare out = bare s.
Proof.
  rewrite format_cpf_spec. intros H. inversion H; subst; clear H.
  destruct (Nat.eqb_spec (length (bare s)) 11).
  - apply bare_dotted; [assumption | apply bare_In].
  - apply bare_bare.
Qed.

(** X9. [format_cpf] applied to its own result changes nothing, and its
    result without dots and dashes is the input without dots and dashes;
    an input of eleven other characters comes out in fourteen, as
    [xxx.xxx.xxx-xx]. *)
Theorem format_cpf_idempotent cpf :
  format_cpf (format_cpf cpf) = format_cpf cpf /\
  (forall s out, cpf = Some s -> format_cpf cpf = Some out ->
     bare out = bare s /\
     (length (bare s) = 11%nat ->
      length out = 14%nat /\ nth 3 out 0%N = 46%N /\ nth 7 out 0%N = 46%N /\
      nth 11 out 0%N = 45%N)).
Proof.
  destruct cpf as [s|]; [|split; [reflexivity | discriminate]].
  assert (Hb : forall out, format_cpf (Some s) = Some out -> bare out = bare s).
  { intros out. rewrite format_cpf_spec. intros H. inversion H; subst; clear H.
    destruct (Nat.eqb_spec (length (bare s)) 11).
    - apply bare_dotted; [assumption | apply bare_In].
    - apply bare_bare. }
  split.
  - rewrite (format_cpf_spec s).
    rewrite format_cpf_spec.
    rewrite (Hb _ (format_cpf_spec s)). reflexivity.
  - intros s' out Hs Hout. inversion Hs; subst s'. split; [now apply Hb|].
    intros Hlen. rewrite format_cpf_spec in Hout.
    rewrite Hlen in Hout. cbn [Nat.eqb] in Hout. inversion Hout; subst; clear Hout.
    remember (bare s) as c eqn:E. clear E Hb.
    do 11 (destruct c as [|? c]; [discriminate|]).
    destruct c; [|discriminate]. repeat split.
Qed.

Lemma format_cpf_idempotent_witness :
  format_cpf (Some (U "12345678901")) = Some (U "123.456.789-01") /\
  bare (U "123.456.789-01") = bare (U "12345678901").
Proof.
  split; [reflexivity|].
  destruct (format_cpf_idempotent (Some (U "12345678901"))) as [_ H].
  apply (H (U "12345678901") (U "123.456.789-01") eq_refl eq_refl).
Defined.

Lemma sanitize_document_bare s : sanitize_document (bare s) = sanitize_document s.
Proof.
  unfold sanitize_document, bare, remove_char.
  rewrite !filter_filter; [reflexivity| |];
    intros x Hx; apply negb_true_iff, N.eqb_neq; intros ->; discriminate.
Qed.

Lemma sanitize_document_idempotent s :
  sanitize_document (sanitize_document s) = sanitize_document s.
Proof.
  unfold sanitize_document. apply filter_all. intros x Hx.
  now apply filter_In in Hx.
Qed.

(** X10. The lookup does not depend on how a document is written: only
    its digits are sent, so [analyze_document] gives the same for a
    document, for its digits alone and for what [format_cpf] makes of
    it. *)
Theorem lookup_key_is_digits post s :
  (forall c, In c (sanitize_document s) -> is_digit c = true) /\
  analyze_document post (sanitize_document s) = analyze_document post s /\
  (forall out, format_cpf (Some s) = Some out ->
     sanitize_document out = sanitize_document s /\
     analyze_document post out = analyze_document post s).
Proof.
  split; [|split].
  - intros c Hc. unfold sanitize_document in Hc. now apply filter_In in Hc.
  - unfold analyze_document. now rewrite sanitize_document_idempotent.
  - intros out Hout.
    assert (E : sanitize_document out = sanitize_document s).
    { rewrite <- (sanitize_document_bare out), (format_cpf_bare _ _ Hout).
      apply sanitize_document_bare. }
    split; [exact E|]. unfold analyze_document. now rewrite E.
Qed.

Lemma lookup_key_is_digits_witness :
  sanitize_document (U "123.456.789-01") = U "12345678901".
Proof.
  destruct (lookup_key_is_digits (fun _ => RequestFailed) (U "12345678901"))
    as (_ & _ & H).
  destruct (H (U "123.456.789-01") eq_refl) as [E _].
  rewrite E. reflexivity.
Defined.

(** X11. What [analyze_document] returns is never empty: it is the body
    of the response itself, or [{"Result": []}] when the request failed
    or the body was empty.  An exception of the request other than a
    [RequestException] is not caught. *)
Theorem analyze_document_result post document :
  (forall r, analyze_document post document = Ok r ->
     truthy r = true /\
     (post (sanitize_document document) = Body r \/
      (r = no_result /\
       (post (sanitize_document document) = RequestFailed \/
        exists v, post (sanitize_document document) = Body v /\ truthy v = false)))) /\
  (post (sanitize_document document) = RequestFailed ->
   analyze_document post document = Ok no_result) /\
  (post (sanitize_document document) = Crashed ->
   analyze_document post document = Raise OtherException).
Proof.
  unfold analyze_document, fetch_bdc_data. split; [|split].
  - intros r. destruct (post (sanitize_document document)) as [| |v]; cbn [bind].
    + simpl. intros H. inversion H; subst. split; [reflexivity|]. right. auto.
    + discriminate.
    + destruct (truthy v) eqn:T.
      * intros H. apply bind_Ok in H as (u & _ & H). cbn [negb] in H.
        inversion H; subst. auto.
      * cbn [bind negb]. intros H. inversion H; subst.
        split; [reflexivity|]. right. split; [reflexivity|]. right. now exists v.
  - intros ->. reflexivity.
  - intros ->. reflexivity.
Qed.

Lemma analyze_document_result_witness :
  analyze_document (fun _ => Body Terms.sample_response) (U "123.456.789-01")
  = Ok Terms.sample_response /\
  truthy Terms.sample_response = true.
Proof.
  assert (H : analyze_document (fun _ => Body Terms.sample_response)
                (U "123.456.789-01") = Ok Terms.sample_response)
    by (vm_compute; reflexivity).
  split; [exact H|].
  destruct (analyze_document_result (fun _ => Body Terms.sample_response)
              (U "123.456.789-01")) as [Hr _].
  apply (Hr _ H).
Defined.

End DocumentFacts.

(** ** More on the analysis of counterparties *)

Module CounterpartyMore.
Import Bdc Counterparty TextFacts PyFacts Terms MoreTerms SortFacts
       ExtractionFacts AnalysisFacts.
Local Open Scope py_scope.
Local Open Scope string_scope.

(** *** Extraction *)

(** X12. At most ten processes are kept, and they are those of the first
    ten lawsuits of the response, in their order. *)
Theorem processes_are_the_first_ten bdc_result a lawsuits :
  extract_processes_and_sanctions bdc_result = Ok a ->
  lawsuits_of bdc_result = Ok lawsuits ->
  match lawsuits with
  | PList l =>
      mapM process_info (firstn 10 l) = Ok (processes a) /\
      length (processes a) = Nat.min 10 (length l)
  | _ => processes a = []
  end.
Proof.
  intros H Hl. unfold lawsuits_of in Hl.
  destruct (extract_spec _ _ H)
    as [[Hp ->]|(pd & lw & kyc & Hp & (pdata & Hpd & Hlw) & Hcase & _)];
    rewrite Hp in Hl; cbn [bind] in Hl.
  - inversion Hl; subst. simpl. auto.
  - rewrite Hpd in Hl. cbn [bind] in Hl.
    assert (lw = lawsuits) by congruence. subst lw.
    destruct (truthy lawsuits) eqn:T.
    + destruct Hcase as (l & -> & _ & Hm). split; [exact Hm|].
      apply mapM_length in Hm. now rewrite Hm, length_firstn.
    + destruct lawsuits as [| | | |l|]; try exact Hcase.
      destruct l; [|discriminate]. rewrite Hcase. simpl. auto.
Qed.

Lemma processes_are_the_first_ten_witness :
  length (processes (returned (extract_processes_and_sanctions sample_twelve_lawsuits)))
  = 10%nat.
Proof.
  assert (H : extract_processes_and_sanctions sample_twelve_lawsuits
              = Ok (returned (extract_processes_and_sanctions sample_twelve_lawsuits)))
    by (vm_compute; reflexivity).
  assert (Hl : lawsuits_of sample_twelve_lawsuits
               = Ok (PList (map lawsuit ["1"; "2"; "3"; "4"; "5"; "6"; "7"; "8"; "9";
                                         "10"; "11"; "12"])))
    by (vm_compute; reflexivity).
  destruct (processes_are_the_first_ten _ _ _ H Hl) as [_ Hlen]. exact Hlen.
Defined.

(** The two flags are read last, each adding its own record. *)
Lemma collect_sanctions_flags kyc_data l :
  collect_sanctions kyc_data = Ok l -> truthy kyc_data = true ->
  exists before is_pep is_sanctioned,
    py_get kyc_data "IsCurrentlyPEP" (PBool false) = Ok is_pep /\
    py_get kyc_data "IsCurrentlySanctioned" (PBool false) = Ok is_sanctioned /\
    l = (before ++ (if truthy is_pep then [current_pep] else []) ++
                   (if truthy is_sanctioned then [current_sanction] else []))%list.
Proof.
  unfold collect_sanctions. intros H T. rewrite T in H.
  apply bind_Ok in H as (pep_history & _ & H).
  apply bind_Ok in H as (peps & _ & H).
  apply bind_Ok in H as (history & _ & H).
  apply bind_Ok in H as (kept & _ & H).
  apply bind_Ok in H as (flags & Hf & H).
  apply bind_Ok in Hf as (v1 & H1 & Hf).
  apply bind_Ok in Hf as (v2 & H2 & Hf).
  inversion Hf; subst; clear Hf. inversion H; subst; clear H.
  exists (peps ++ concat kept)%list, v1, v2.
  repeat split; try assumption. now rewrite <- app_assoc.
Qed.

(** X13. A person who is a PEP today, or under sanctions today, gets
    the record of that flag and the level ALTO, with or without any
    history. *)
Theorem current_flag_is_alto bdc_result a kyc_data :
  extract_processes_and_sanctions bdc_result = Ok a ->
  kyc_of bdc_result = Ok kyc_data ->
  truthy kyc_data = true ->
  (forall v, py_get kyc_data "IsCurrentlyPEP" (PBool false) = Ok v ->
             truthy v = true ->
             In current_pep (sanctions a) /\ risk_level a = ALTO) /\
  (forall v, py_get kyc_data "IsCurrentlySanctioned" (PBool false) = Ok v ->
             truthy v = true ->
             In current_sanction (sanctions a) /\ risk_level a = ALTO).
Proof.
  intros H Hk T. unfold kyc_of in Hk.
  destruct (extract_spec _ _ H)
    as [[Hp ->]|(pd & lw & kyc & Hp & _ & _ & Hkyc & Hc & _ & Hs & Hr)];
    rewrite Hp in Hk; cbn [bind] in Hk.
  { inversion Hk; subst. discriminate. }
  assert (kyc = kyc_data) by congruence. subst kyc.
  destruct (collect_sanctions_flags _ _ Hc T) as (before & v1 & v2 & H1 & H2 & Hl).
  assert (Halto : forall r, In r (sanctions a) -> risk_level a = ALTO).
  { intros r Hin. rewrite Hr, Hs. destruct (sanctions a); [destruct Hin|reflexivity]. }
  split; intros v Hv Tv.
  - assert (v = v1) by congruence. subst v1.
    assert (Hin : In current_pep (sanctions a)).
    { rewrite Hl, Tv. apply in_or_app. right. now left. }
    split; [exact Hin | exact (Halto _ Hin)].
  - assert (v = v2) by congruence. subst v2.
    assert (Hin : In current_sanction (sanctions a)).
    { rewrite Hl, Tv. apply in_or_app. right. apply in_or_app. right. now left. }
    split; [exact Hin | exact (Halto _ Hin)].
Qed.

Lemma current_flag_is_alto_witness :
  risk_level (returned (extract_processes_and_sanctions sample_current_pep)) = ALTO.
Proof.
  assert (H : extract_processes_and_sanctions sample_current_pep
              = Ok (returned (extract_processes_and_sanctions sample_current_pep)))
    by (vm_compute; reflexivity).
  assert (Hk : kyc_of sample_current_pep
               = Ok (PDict [entry "IsCurrentlyPEP" (PBool true)]))
    by (vm_compute; reflexivity).
  destruct (current_flag_is_alto _ _ _ H Hk eq_refl) as [Hpep _].
  destruct (Hpep (PBool true) eq_refl eq_refl) as [_ Halto]. exact Halto.
Defined.

(** *** Selection and summary *)


Section Facts.
Variable post : direction -> nat -> pystr -> http_outcome.
Variable float_of_str : pystr -> option Q.
Variable str_of_value : pyval -> pystr.

#[local] Abbreviation top3 := (top3 float_of_str).
#[local] Abbreviation amount_key := (amount_key float_of_str).
#[local] Abbreviation with_key := (with_key float_of_str).
#[local] Abbreviation visit := (visit post str_of_value).
#[local] Abbreviation visit_all := (visit_all post str_of_value).
#[local] Abbreviation analyze_counterparties :=
  (analyze_counterparties true post float_of_str str_of_value).


(** A record without document leaves the analysis as it was. *)
Lemma first_document_none fields d :
  forallb (fun field => match lookup (U field) d with
                        | Some v => negb (truthy v)
                        | None => true
                        end) fields = true ->
  first_document str_of_value fields (PDict d) = Ok None.
Proof.
  induction fields as [|f fields IH]; simpl; [reflexivity|].
  intros H. apply andb_true_iff in H as [Hf Hrest].
  destruct (lookup (U f) d) as [v|]; simpl; [|now apply IH].
  apply negb_true_iff in Hf. rewrite Hf. now apply IH.
Qed.

Lemma visit_undocumented d i tx ca :
  no_document tx = true -> visit d i tx ca = Ok ca.
Proof.
  unfold Counterparty.visit, extract_document_from_transaction.
  destruct tx as [| | | | |dd]; try discriminate. intros H.
  unfold no_document in H. now rewrite (first_document_none possible_fields dd H).
Qed.

Lemma visit_all_undocumented d top : forall i ca,
  (forall tx, In tx top -> no_document tx = true) -> visit_all d i top ca = Ok ca.
Proof.
  induction top as [|tx top IH]; simpl; intros i ca H; [reflexivity|].
  rewrite visit_undocumented by (apply H; now left). simpl.
  apply IH. intros; apply H; now right.
Qed.

(** X15. Records in which no recognized document field holds a value are
    passed over: when no record of either list has a document, the
    analysis is the empty one, whatever the lookup service would
    answer. *)
Theorem undocumented_records_are_skipped cash_in_list cash_out_list uid s1 s2 :
  top3 cash_in_list = Ok s1 -> top3 cash_out_list = Ok s2 ->
  (forall tx, In tx cash_in_list \/ In tx cash_out_list -> no_document tx = true) ->
  analyze_counterparties cash_in_list cash_out_list uid = Ok (empty_analysis true).
Proof.
  intros H1 H2 Hno. unfold Counterparty.analyze_counterparties. simpl.
  rewrite H1. simpl.
  rewrite visit_all_undocumented
    by (intros tx Hx; apply Hno; left; exact (top3_subset _ _ _ _ H1 Hx)).
  simpl. rewrite H2. simpl.
  apply visit_all_undocumented.
  intros tx Hx. apply Hno. right. exact (top3_subset _ _ _ _ H2 Hx).
Qed.

(** A profile that was recorded comes from an extraction. *)
Lemma lookup_profile_sound d i tx doc p :
  lookup_profile post d i tx doc = Ok p ->
  transaction_type p = d /\ level_follows_signals p.
Proof.
  unfold lookup_profile. intros H.
  apply bind_Ok in H as (r & _ & H).
  apply bind_Ok in H as (a & Ha & H).
  apply bind_Ok in H as (amount & _ & H).
  apply bind_Ok in H as (date & _ & H).
  apply bind_Ok in H as (party & _ & H).
  inversion H; subst; clear H. split; [reflexivity|].
  unfold level_follows_signals. simpl.
  destruct (extract_processes_length _ _ Ha) as [Hlen _]. split; [|exact Hlen].
  destruct (extract_spec _ _ Ha)
    as [[_ ->]|(pd & lw & kyc & _ & _ & _ & _ & _ & _ & _ & Hr)]; auto.
Qed.

Lemma visit_sound d i tx ca ca' :
  visit d i tx ca = Ok ca' -> sound_lists ca -> sound_lists ca'.
Proof.
  unfold Counterparty.visit. intros H [Hi Ho].
  apply bind_Ok in H as (document & _ & H).
  destruct document as [[|c doc]|]; try (inversion H; subst; now split).
  destruct (lookup_profile post d i tx (c :: doc)) as [p|e] eqn:E;
    inversion H; subst; [|now split].
  destruct (lookup_profile_sound _ _ _ _ _ E) as [Ht Hl].
  unfold sound_lists, record_profile. simpl. rewrite Ht.
  destruct d; split; try assumption;
    apply Forall_app; (split; [assumption|]);
    (constructor; [split; assumption | constructor]).
Qed.

Lemma visit_all_sound d top : forall i ca ca',
  visit_all d i top ca = Ok ca' -> sound_lists ca -> sound_lists ca'.
Proof.
  induction top as [|tx top IH]; simpl; intros i ca ca' H Hs.
  - now inversion H; subst.
  - apply bind_Ok in H as (ca1 & H1 & H).
    apply (IH _ _ _ H). now apply (visit_sound _ _ _ _ _ H1).
Qed.

Lemma tally_order l :
  Forall level_follows_signals l ->
  (tally has_sanctions l <= tally (fun a => is_high_risk (risk_level a)) l)%nat /\
  (tally (fun a => is_high_risk (risk_level a)) l
   <= tally has_sanctions l + tally has_processes l)%nat.
Proof.
  unfold tally. induction 1 as [|p l [Hp _] _ [IH1 IH2]]; simpl; [lia|].
  rewrite Hp. unfold risk_of.
  destruct (has_sanctions (found p)), (has_processes (found p));
    simpl; try lia.
  destruct (3 <? _)%nat; simpl; lia.
Qed.

(** X16. In every analysis that is returned, a counterparty with
    sanctions counts as high risk and a high-risk counterparty has
    sanctions or processes: the count with sanctions is at most the
    high-risk count, which is at most the counts with sanctions and with
    processes together.  Each profile stands in the list of its
    direction with at most ten processes. *)
Theorem summary_counts_are_ordered cash_in_list cash_out_list uid ca :
  analyze_counterparties cash_in_list cash_out_list uid = Ok ca ->
  let s := totals ca in
  (counterparties_with_sanctions s <= high_risk_counterparties s)%nat /\
  (high_risk_counterparties s
   <= counterparties_with_sanctions s + counterparties_with_processes s)%nat /\
  Forall (fun p => transaction_type p = CASH_IN /\
                   (length (processes (found p)) <= 10)%nat)
         (top_cash_in_analysis ca) /\
  Forall (fun p => transaction_type p = CASH_OUT /\
                   (length (processes (found p)) <= 10)%nat)
         (top_cash_out_analysis ca).
Proof.
  intros H s. subst s. unfold Counterparty.analyze_counterparties in H.
  simpl in H.
  apply bind_Ok in H as (s1 & _ & H).
  apply bind_Ok in H as (ca1 & Hca1 & H).
  apply bind_Ok in H as (s2 & _ & H).
  assert (Hc : coherent ca).
  { apply (visit_all_coherent _ _ _ _ _ _ _ H).
    apply (visit_all_coherent _ _ _ _ _ _ _ Hca1).
    apply empty_analysis_coherent. }
  assert (Hs : sound_lists ca).
  { apply (visit_all_sound _ _ _ _ _ H).
    apply (visit_all_sound _ _ _ _ _ Hca1).
    split; constructor. }
  destruct Hc as (_ & Hp & Hsn & Hh). destruct Hs as [Hi Ho].
  destruct (tally_order (top_cash_in_analysis ca)) as [A1 A2].
  { eapply Forall_impl; [|exact Hi]. now intros p [_ Hl]. }
  destruct (tally_order (top_cash_out_analysis ca)) as [B1 B2].
  { eapply Forall_impl; [|exact Ho]. now intros p [_ Hl]. }
  rewrite Hp, Hsn, Hh. repeat split; try lia.
  - eapply Forall_impl; [|exact Hi]. intros p [Ht [_ Hl]]. auto.
  - eapply Forall_impl; [|exact Ho]. intros p [Ht [_ Hl]]. auto.
Qed.

End Facts.


Lemma undocumented_records_are_skipped_witness :
  analyze_counterparties true post_sample no_float no_text
    [ anonymous_transaction 10; anonymous_transaction 30 ]
    [ anonymous_transaction 5 ] 7
  = Ok (empty_analysis true).
Proof.
  apply (undocumented_records_are_skipped post_sample no_float no_text _ _ 7%Z
           [ anonymous_transaction 30; anonymous_transaction 10 ]
           [ anonymous_transaction 5 ]).
  - reflexivity.
  - reflexivity.
  - intros tx [[<-|[<-|[]]]|[<-|[]]]; reflexivity.
Defined.

Lemma summary_counts_are_ordered_witness :
  let ca := analyzed (analyze_counterparties true post_sample no_float no_text
                        [ transaction "111" 10; transaction "222" 30 ]
                        [ transaction "555" 7 ] 1) in
  counterparties_with_sanctions (totals ca) = 3%nat /\
  (counterparties_with_sanctions (totals ca) <= high_risk_counterparties (totals ca))%nat.
Proof.
  intros ca.
  assert (H : analyze_counterparties true post_sample no_float no_text
                [ transaction "111" 10; transaction "222" 30 ]
                [ transaction "555" 7 ] 1 = Ok ca)
    by (vm_compute; reflexivity).
  split; [reflexivity|].
  destruct (summary_counts_are_ordered post_sample no_float no_text _ _ 1%Z ca H)
    as [Hle _]. exact Hle.
Defined.

End CounterpartyMore.

(** ** convert_decimals *)

Module ConvertFacts.
Import Report Helpers PyFacts.
Local Open Scope py_scope.








End ConvertFacts.

(** ** analyze_user and the dashboard *)

Module AppFacts.
Import Bdc Counterparty Report Payload Gpt App TextFacts PyFacts Terms MoreTerms
       PayloadFacts PayloadMore GptFacts ReportFacts.
Local Open Scope py_scope.
Local Open Scope string_scope.

Section Facts.
Variable BDC_AVAILABLE : bool.
Variable post : direction -> nat -> pystr -> http_outcome.
Variable float_of_str : pystr -> option Q.
Variable str_of_value : pyval -> pystr.
Variable round2 : pyval -> pyval.
Variable series_sum : list pyval -> pyval.
Variable warehouse : query -> Z -> query_outcome.
Variable generate_prompt :
  Z -> merchant_dossier + report -> pystr -> option pystr -> result pystr.
Variable client : pystr -> pystr -> completion.

#[local] Abbreviation merchant_report :=
  (merchant_report BDC_AVAILABLE post float_of_str str_of_value round2 series_sum
                   warehouse).
#[local] Abbreviation cardholder_report :=
  (cardholder_report BDC_AVAILABLE post float_of_str str_of_value round2 series_sum
                     warehouse).
#[local] Abbreviation report_for :=
  (report_for BDC_AVAILABLE post float_of_str str_of_value round2 series_sum
              warehouse).
#[local] Abbreviation analyze_user :=
  (analyze_user BDC_AVAILABLE post float_of_str str_of_value round2 series_sum
                warehouse generate_prompt client).

(** X18. A user whose merchant profile query brings no row, or fails, is
    analyzed as a cardholder, from the cardholder report; and when the
    merchant report raises, [analyze_user] raises the same exception:
    the cardholder report is not tried. *)
Theorem subject_kind_follows_profile user_data :
  let uid := flagged_id user_data in
  let alert := alert_type user_data in
  (no_rows (warehouse MerchantReport uid) ->
   forall r, report_for uid alert = Ok r ->
             exists c, r = inr c /\ cardholder_report uid alert = Ok c) /\
  (forall m, report_for uid alert = Ok (inl m) ->
             merchant_report uid alert = Ok m /\ subject_info (shared m) <> []) /\
  (forall e, merchant_report uid alert = Raise e -> analyze_user user_data = Raise e).
Proof.
  intros uid alert. split; [|split].
  - intros Hno r H. unfold App.report_for in H.
    apply bind_Ok in H as (m & Hm & H).
    assert (Hinfo : subject_info (shared m) = []).
    { unfold Report.merchant_report in Hm.
      apply bind_Ok in Hm as (l1 & _ & Hm).
      apply bind_Ok in Hm as (l2 & _ & Hm).
      apply bind_Ok in Hm as (b & Hb & Hm). inversion Hm; subst; clear Hm. simpl.
      apply build_spec in Hb as (pix & _ & -> & _).
      unfold first_record_or_empty, Report.run. now rewrite (no_rows_empty _ Hno). }
    rewrite Hinfo in H. apply bind_Ok in H as (c & Hc & H).
    inversion H; subst. now exists c.
  - intros m H. unfold App.report_for in H.
    apply bind_Ok in H as (m' & Hm & H).
    destruct (subject_info (shared m')) eqn:E.
    + apply bind_Ok in H as (c & _ & H). discriminate.
    + inversion H; subst. split; [exact Hm|]. rewrite E. discriminate.
  - intros e H. unfold App.analyze_user, App.report_for. fold uid alert.
    now rewrite H.
Qed.

(** X19. Every payload that [analyze_user] returns carries the id of the
    user; and when the report and the prompt are built but the call to
    the completion service raises, [analyze_user] still returns a
    payload, with the empty conclusion and priority "high". *)
Theorem failed_analysis_is_sent_inconclusive user_data :
  (forall p, analyze_user user_data = Ok p -> user_id p = flagged_id user_data) /\
  (forall r prompt msg,
      report_for (flagged_id user_data) (alert_type user_data) = Ok r ->
      generate_prompt (flagged_id user_data) r (alert_type user_data)
                      (features user_data) = Ok prompt ->
      client gpt_4o prompt = Failed msg ->
      exists p, analyze_user user_data = Ok p /\
                conclusion p = "" /\ priority p = "high").
Proof.
  split.
  - intros p H. unfold App.analyze_user in H.
    apply bind_Ok in H as (r & _ & H). apply bind_Ok in H as (prompt & _ & H).
    now inversion H.
  - intros r prompt msg Hr Hp Hf. unfold App.analyze_user.
    fold report_for. rewrite Hr. cbn [bind]. rewrite Hp. cbn [bind].
    eexists. split; [reflexivity|].
    pose proof (failure_message_has_error _ _ _ _ Hf) as Herr.
    destruct (payload_with_error (flagged_id user_data)
                (get_gpt_analysis client prompt)
                (match business_validation user_data with
                 | Some b => b | None => false end) Herr) as (Hc & Hpr & _).
    split; assumption.
Qed.

End Facts.

Lemma subject_kind_follows_profile_witness :
  exists c,
    report_for true post_down no_float no_text same_cell no_sum
               (fun q uid => QueryError) 7 (U "AI Alert") = Ok (inr c).
Proof.
  destruct (subject_kind_follows_profile true post_down no_float no_text same_cell
              no_sum (fun q uid => QueryError) sample_prompt client_down sample_user)
    as (H & _ & _).
  assert (Hr : exists r, report_for true post_down no_float no_text same_cell no_sum
                           (fun q uid => QueryError) 7 (U "AI Alert") = Ok r)
    by (eexists; vm_compute; reflexivity).
  destruct Hr as [r Hr].
  destruct (H eq_refl r Hr) as (c & -> & _). now exists c.
Defined.

Lemma failed_analysis_is_sent_inconclusive_witness :
  exists p,
    analyze_user true post_down no_float no_text same_cell no_sum sample_warehouse
                 sample_prompt client_down sample_user = Ok p /\
    conclusion p = "" /\ priority p = "high".
Proof.
  destruct (failed_analysis_is_sent_inconclusive true post_down no_float no_text
              same_cell no_sum sample_warehouse sample_prompt client_down sample_user)
    as [_ H].
  assert (Hr : exists r, report_for true post_down no_float no_text same_cell no_sum
                           sample_warehouse 7 (U "AI Alert") = Ok r)
    by (eexists; vm_compute; reflexivity).
  destruct Hr as [r Hr].
  apply (H r (U "Por favor, analise o caso abaixo.") (U "Connection error.") Hr);
    reflexivity.
Defined.

(** *** The dashboard *)

Local Open Scope Z_scope.

Lemma int_of_digits_nonneg s : 0 <= int_of_digits s.
Proof. unfold int_of_digits. apply N2Z.is_nonneg. Qed.

Lemma dashboard_score_nonneg d : 0 <= dashboard_score d.
Proof.
  unfold dashboard_score. destruct (Re.search _ _); [apply int_of_digits_nonneg|lia].
Qed.

(** The counters from any start. *)
Lemma count_users_from outcomes : forall t,
  let t' := fold_left (fun t o => count_user o t) outcomes t in
  analyzed_count t' = (analyzed_count t + length outcomes)%nat /\
  length (risk_scores t')
  = (length (risk_scores t) + length (filter is_sent outcomes))%nat /\
  suspicious_count t'
  = (suspicious_count t + length (filter is_suspicious outcomes))%nat /\
  (Forall (fun s => 0 <= s) (risk_scores t) -> Forall (fun s => 0 <= s) (risk_scores t')).
Proof.
  induction outcomes as [|o outcomes IH]; intros t; cbn [fold_left].
  - simpl. repeat split; auto; lia.
  - destruct (IH (count_user o t)) as (Ha & Hr & Hs & Hp).
    cbv zeta. rewrite Ha, Hr, Hs. clear Ha Hr Hs.
    destruct o as [p|e]; cbn [count_user analyzed_count suspicious_count risk_scores
                              filter is_sent is_suspicious length] in *.
    + rewrite length_app. cbn [length].
      assert (Hf : Forall (fun s => 0 <= s) (risk_scores t) ->
                   Forall (fun s => 0 <= s)
                          (risk_scores t ++ [dashboard_score (description p)])).
      { intros Hf. apply Forall_app. split; [exact Hf|].
        constructor; [apply dashboard_score_nonneg | constructor]. }
      destruct (conclusion p =? "suspicious")%string; cbn [length];
        repeat split; try lia; intros Hx; apply Hp, Hf, Hx.
    + repeat split; try lia. exact Hp.
Qed.

Lemma filter_suspicious_le outcomes :
  (length (filter is_suspicious outcomes) <= length (filter is_sent outcomes))%nat.
Proof.
  induction outcomes as [|[p|e] l IH]; simpl; [lia| |exact IH].
  destruct (conclusion p =? "suspicious")%string; simpl; lia.
Qed.

(** X20. After the loop of [run_bot], [analyzed_count] is the number of
    flagged users, those whose analysis raised included; a score is
    recorded for each user whose payload was sent and for no other, and
    none is negative; [suspicious_count] is the number of sent payloads
    whose conclusion is "suspicious".  The average score is 0 when no
    payload was sent. *)
Theorem run_bot_counts outcomes :
  let t := run_bot_tallies outcomes in
  analyzed_count t = length outcomes /\
  length (risk_scores t) = length (filter is_sent outcomes) /\
  suspicious_count t = length (filter is_suspicious outcomes) /\
  (suspicious_count t <= length (risk_scores t) <= analyzed_count t)%nat /\
  Forall (fun s => 0 <= s) (risk_scores t) /\
  (filter is_sent outcomes = [] -> avg_score t = 0%Q).
Proof.
  intros t. subst t. unfold run_bot_tallies.
  destruct (count_users_from outcomes
              {| analyzed_count := 0; suspicious_count := 0; risk_scores := [] |})
    as (Ha & Hr & Hs & Hp).
  simpl in Ha, Hr, Hs, Hp.
  pose proof (filter_suspicious_le outcomes).
  pose proof (filter_length_le is_sent outcomes).
  repeat split; try lia.
  - apply Hp. constructor.
  - intros Hnone. unfold avg_score. rewrite Hnone in Hr. simpl in Hr.
    destruct (risk_scores _); [reflexivity|discriminate].
Qed.

(** X21. The tiers of the dashboard are the tiers of the payload: the
    label is "Risco Extremo" exactly for the scores mapped to "offense",
    "Alto Risco" for those mapped to suspicious/high, "Médio-Alto Risco"
    for those mapped to priority "mid", and "Baixo Risco" or "Médio
    Risco" for those mapped to "normal". *)
Theorem dashboard_tiers_match s clean :
  (fst (risk_label s) = U "Risco Extremo" <-> fst (mapped s clean) = "offense") /\
  (fst (risk_label s) = U "Alto Risco"
   <-> mapped s clean = ("suspicious", "high")) /\
  (fst (risk_label s) = U "Médio-Alto Risco" <-> snd (mapped s clean) = "mid") /\
  (fst (risk_label s) = U "Baixo Risco" \/ fst (risk_label s) = U "Médio Risco"
   <-> fst (mapped s clean) = "normal") /\
  (fst (risk_label s) = U "Médio Risco" <-> s = 6).
Proof.
  rewrite mapped_score. unfold risk_label.
  destruct (Z.leb_spec s 5); [destruct (Z.leb_spec s 6); [|lia]|];
    [|destruct (Z.leb_spec s 6);
      [|destruct (Z.leb_spec s 8); [|destruct (Z.leb_spec s 9)]]];
    cbn [fst snd];
    repeat split; intros Hx;
      try (vm_compute in Hx; discriminate);
      try reflexivity; try lia;
      try (left; reflexivity); try (right; reflexivity);
      try (destruct Hx as [Hx|Hx]; vm_compute in Hx; discriminate).
Qed.

Lemma mid_priority_score uid raw bv :
  priority (format_export_payload uid raw bv) = "mid"%string ->
  has_error (sanitize raw) = false /\ 7 <= extract_risk_score (sanitize raw) <= 8.
Proof.
  intros Hp. destruct (has_error (sanitize raw)) eqn:Herr.
  - destruct (payload_with_error uid raw bv Herr) as (_ & Hh & _).
    rewrite Hh in Hp. discriminate.
  - split; [reflexivity|].
    destruct (payload_without_error uid raw bv Herr) as (_ & _ & _ & Hq).
    rewrite Hq, mapped_score in Hp.
    destruct (Z.leb_spec (extract_risk_score (sanitize raw)) 6); [discriminate|].
    destruct (Z.leb_spec (extract_risk_score (sanitize raw)) 8); [lia|].
    destruct (Z.leb_spec (extract_risk_score (sanitize raw)) 9); discriminate.
Qed.

Lemma append_once_contains marker note s :
  contains marker note = true -> contains marker (append_once marker note s) = true.
Proof.
  intros H. unfold append_once. destruct (contains marker s) eqn:E; [exact E|].
  now apply contains_app_r.
Qed.

(** X22. The conclusion label of the dashboard follows the payload: the
    empty conclusion shows "Indefinido"; "offense" shows "Offense
    High"; "suspicious" with priority "mid" shows "Suspicious Mid"; and a
    score of 6 shows "Normal (monitorar)". *)
Theorem conclusion_label_of_payload uid raw bv :
  let p := format_export_payload uid raw bv in
  (has_error (sanitize raw) = true ->
   conclusion_label p = ("Indefinido", "risk-badge-medium")%string) /\
  (conclusion p = "offense"%string ->
   conclusion_label p = ("Offense High", "risk-badge-high")%string) /\
  (conclusion p = "suspicious"%string -> priority p = "mid"%string ->
   conclusion_label p = ("Suspicious Mid", "risk-badge-high")%string) /\
  (has_error (sanitize raw) = false -> extract_risk_score (sanitize raw) = 6 ->
   conclusion_label p = ("Normal (monitorar)", "risk-badge-medium")%string).
Proof.
  intros p. subst p. unfold conclusion_label. repeat split.
  - intros Herr. destruct (payload_with_error uid raw bv Herr) as (-> & _). reflexivity.
  - intros ->. reflexivity.
  - intros Hc Hp. rewrite Hc. cbn [String.eqb Ascii.eqb Bool.eqb andb].
    destruct (mid_priority_score uid raw bv Hp) as (Herr & Hs).
    destruct (payload_without_error uid raw bv Herr) as (_ & -> & _).
    unfold classify.
    destruct (Z.leb_spec (extract_risk_score (sanitize raw)) 5); [lia|].
    destruct (Z.leb_spec (extract_risk_score (sanitize raw)) 6); [lia|].
    destruct (Z.leb_spec (extract_risk_score (sanitize raw)) 8); [|lia].
    cbn [snd]. rewrite append_once_contains by reflexivity.
    now rewrite orb_true_r.
  - intros Herr Hs.
    destruct (payload_without_error uid raw bv Herr) as (_ & Hd & Hc & _).
    rewrite Hc, Hd, Hs. cbn [mapped classify Z.leb Z.compare Pos.compare
                             Pos.compare_cont fst snd].
    unfold override. destruct (_ && _);
      cbn [String.eqb Ascii.eqb Bool.eqb andb];
      now rewrite append_once_contains by reflexivity.
Qed.

(** X23. The dashboard reads the score with the first pattern only.
    When the score of a payload came from the second pattern ("Score:
    N/10") and no note was added, the dashboard shows 0, whatever the
    score that decided the conclusion. *)
Theorem dashboard_misses_second_pattern uid raw bv :
  has_error (sanitize raw) = false ->
  Re.search risk_score_pattern (sanitize raw) = None ->
  extract_risk_score (sanitize raw) <= 5 \/ 9 <= extract_risk_score (sanitize raw) ->
  let p := format_export_payload uid raw bv in
  dashboard_score (description p) = 0 /\
  risk_score (format_export_locals raw) = Some (extract_risk_score (sanitize raw)).
Proof.
  intros Herr Hnone Hs p. subst p.
  destruct (payload_without_error uid raw bv Herr) as (Hr & Hd & _).
  split; [|exact Hr]. rewrite Hd. unfold classify.
  destruct (Z.leb_spec (extract_risk_score (sanitize raw)) 5).
  - cbn [snd]. unfold dashboard_score. now rewrite Hnone.
  - destruct (Z.leb_spec (extract_risk_score (sanitize raw)) 6); [lia|].
    destruct (Z.leb_spec (extract_risk_score (sanitize raw)) 8); [lia|].
    destruct (Z.leb_spec (extract_risk_score (sanitize raw)) 9);
      cbn [snd]; unfold dashboard_score; now rewrite Hnone.
Qed.

Lemma dashboard_misses_second_pattern_witness :
  let d := U "Perfil incompatível. Score: 9/10" in
  conclusion (format_export_payload 7 d false) = "suspicious"%string /\
  dashboard_score (description (format_export_payload 7 d false)) = 0 /\
  fst (risk_label 0) = U "Baixo Risco".
Proof.
  intros d. split; [reflexivity|]. split; [|reflexivity].
  apply (dashboard_misses_second_pattern 7 d false).
  - reflexivity.
  - reflexivity.
  - right. vm_compute. discriminate.
Defined.

Lemma run_bot_counts_witness :
  let sent := Ok (format_export_payload 7 (U "Risco de Lavagem de Dinheiro: 9/10") false) in
  let t := run_bot_tallies [ sent; Raise KeyError; sent ] in
  let failed := run_bot_tallies [ Raise KeyError; Raise KeyError ] in
  (analyzed_count t = 3%nat /\ risk_scores t = [9; 9] /\ suspicious_count t = 2%nat) /\
  (analyzed_count failed = 2%nat /\ avg_score failed = 0%Q).
Proof.
  intros sent t failed. split.
  - destruct (run_bot_counts [ sent; Raise KeyError; sent ]) as (Ha & _).
    split; [exact Ha|]. split; reflexivity.
  - destruct (run_bot_counts [ Raise KeyError; Raise KeyError ])
      as (Ha & _ & _ & _ & _ & Havg).
    split; [exact Ha | apply Havg; reflexivity].
Defined.

Lemma conclusion_label_of_payload_witness :
  conclusion_label (format_export_payload 7 (U "Risco de Lavagem de Dinheiro: 6/10") false)
  = ("Normal (monitorar)", "risk-badge-medium")%string.
Proof.
  destruct (conclusion_label_of_payload 7 (U "Risco de Lavagem de Dinheiro: 6/10") false)
    as (_ & _ & _ & H).
  apply H; reflexivity.
Defined.

End AppFacts.

(** ** Order of the profiles and split of the PIX rows *)

Module OrderFacts.
Import Bdc Counterparty Report TextFacts PyFacts Terms MoreTerms SortFacts
       AnalysisFacts ReportFacts.
Local Open Scope py_scope.
Local Open Scope string_scope.


Section Facts.
Variable post : direction -> nat -> pystr -> http_outcome.
Variable float_of_str : pystr -> option Q.
Variable str_of_value : pyval -> pystr.

#[local] Abbreviation top3 := (top3 float_of_str).
#[local] Abbreviation visit := (visit post str_of_value).
#[local] Abbreviation visit_all := (visit_all post str_of_value).






End Facts.


End OrderFacts.

(** ** The PIX rows of a report *)

Module PixFacts.
Import Bdc Counterparty Report TextFacts PyFacts Terms MoreTerms ReportFacts.
Local Open Scope py_scope.
Local Open Scope string_scope.

Lemma index_of_some c cs n : index_of c cs = Some n -> cs <> [].
Proof. destruct cs; [discriminate|]. intros _. discriminate. Qed.

Lemma disjoint_filters {A} (f g : A -> bool) l :
  (forall x, f x = true -> g x = false) ->
  (length (filter f l) + length (filter g l) <= length l)%nat.
Proof.
  intros H. induction l as [|x l IH]; simpl; [lia|].
  destruct (f x) eqn:F; [rewrite (H _ F)|destruct (g x)]; simpl; lia.
Qed.

Section Facts.
Variable BDC_AVAILABLE : bool.
Variable post : direction -> nat -> pystr -> http_outcome.
Variable float_of_str : pystr -> option Q.
Variable str_of_value : pyval -> pystr.
Variable round2 : pyval -> pyval.
Variable series_sum : list pyval -> pyval.
Variable warehouse : query -> Z -> query_outcome.

#[local] Abbreviation build :=
  (build BDC_AVAILABLE post float_of_str str_of_value round2 series_sum warehouse).

(** The records of the rounded rows of one type. *)
Lemma typed_records df n s l :
  index_of (U "transaction_type") (columns df) = Some n ->
  convert_decimals
    (records_or_empty
       (round_frame round2 {| columns := columns df; rows := rows_of_type n s df |}))
  = Ok l ->
  length l = length (rows_of_type n s df).
Proof.
  intros Hn H. apply mapM_length in H. rewrite H.
  unfold records_or_empty, df_empty, round_frame, to_dict_records. simpl.
  destruct (columns df) eqn:C; [discriminate|].
  destruct (rows_of_type n s df); simpl; [reflexivity|].
  now rewrite !length_map.
Qed.

(** X25. When the PIX concentration has rows, a report that is returned
    splits them by [transaction_type]: [pix_cash_in] has one record for
    each row of type "Cash In", [pix_cash_out] one for each row of type
    "Cash Out", and a row of another type is in neither; the
    counterparty analysis of the report is the analysis of these two
    lists. *)
Theorem pix_rows_are_split pq iq uid r :
  build pq iq uid = Ok r ->
  let pix := run warehouse PixConcentration uid in
  df_empty pix = false ->
  exists n,
    index_of (U "transaction_type") (columns pix) = Some n /\
    length (pix_cash_in r) = length (rows_of_type n "Cash In" pix) /\
    length (pix_cash_out r) = length (rows_of_type n "Cash Out" pix) /\
    (length (pix_cash_in r) + length (pix_cash_out r) <= length (rows pix))%nat /\
    analyze_counterparties BDC_AVAILABLE post float_of_str str_of_value
      (pix_cash_in r) (pix_cash_out r) uid = Ok (counterparty_analysis_of r).
Proof.
  intros H pix Hne. subst pix.
  apply build_spec in H
    as (pix & Hpix & _ & _ & _ & _ & _ & _ & Hci & Hco & _ & _ & _ & _ & _ & _
        & _ & _ & _ & Hca).
  unfold pix_totals in Hpix. rewrite Hne in Hpix. cbn [negb] in Hpix.
  unfold where_eq in Hpix.
  destruct (index_of (U "transaction_type")
              (columns (run warehouse PixConcentration uid))) as [n|] eqn:Hn;
    [|discriminate].
  cbn [bind] in Hpix.
  apply bind_Ok in Hpix as (a & _ & Hpix).
  apply bind_Ok in Hpix as (b & _ & Hpix).
  apply bind_Ok in Hpix as (c & _ & Hpix).
  apply bind_Ok in Hpix as (d & _ & Hpix).
  inversion Hpix; subst pix; clear Hpix. cbn [cash_in cash_out] in Hci, Hco.
  exists n. split; [reflexivity|].
  pose proof (typed_records _ n "Cash In" _ Hn Hci) as Li.
  pose proof (typed_records _ n "Cash Out" _ Hn Hco) as Lo.
  repeat split; try assumption.
  rewrite Li, Lo. unfold rows_of_type. apply disjoint_filters.
  intros row Hrow. destruct (nth n row PNone); try discriminate.
  apply pystr_eqb_eq in Hrow. subst. reflexivity.
Qed.

End Facts.

Lemma pix_rows_are_split_witness :
  exists r,
    cardholder_report true post_down no_float no_text same_cell no_sum
                      sample_pix_warehouse 7 (U "AI Alert") = Ok r /\
    length (pix_cash_in r) = 2%nat /\ length (pix_cash_out r) = 1%nat.
Proof.
  assert (Hr : exists r, cardholder_report true post_down no_float no_text same_cell
                           no_sum sample_pix_warehouse 7 (U "AI Alert") = Ok r)
    by (eexists; vm_compute; reflexivity).
  destruct Hr as [r Hr]. exists r. split; [exact Hr|].
  destruct (pix_rows_are_split true post_down no_float no_text same_cell no_sum
              sample_pix_warehouse CardholderReport IssuingConcentration 7%Z r Hr
              eq_refl) as (n & Hn & Hi & Ho & _).
  vm_compute in Hn. inversion Hn; subst n. split; [exact Hi | exact Ho].
Defined.

End PixFacts.
